(** * StockTrace: the client-side entity cache and the document workflow

    A shallow embedding of [src/CacheContext.jsx] (the entity cache shared by
    all page controllers), of the parts of [src/AuthContext.jsx],
    the [Layout] component and [src/pages/Receipts.jsx] that touch it, of
    the row-level-security policies on [documents] in the schema migration,
    and of the ledger report that [src/pages/Ledger.jsx] displays.

    Conventions of the embedding.
    - A JavaScript object is a finite map from property names to values
      ([gmap string _]); reading an absent property yields [None]
      ([undefined]).
    - The React state [cache] is never mutated in place: [setCache] builds a
      new object.  A callback created during a render therefore reads the
      snapshot of that render for as long as it lives, while updaters passed
      to [setCache] receive the latest state.  The snapshot is an explicit
      argument of every function that closes over [cache]; updaters are
      functions on the store.
    - [Date.now()] is an explicit argument, or an effect of the [Async]
      monad. *)

From Stdlib Require Import ZArith Bool List Lia QArith Qcanon.
From stdpp Require Import gmap strings list fin_maps.

Local Open Scope string_scope.
Local Open Scope list_scope.
Local Open Scope Z_scope.

(** ** JavaScript values and entities *)

(** Property values.  Numbers are exact integers here (identifiers are UUID
    strings, timestamps are integral milliseconds), so [NaN] does not occur
    and [===] on primitives is plain equality.  A nested array or object
    (the lines of a document) is a reference, and [===] compares
    references. *)
Inductive JsVal : Type :=
| JNull
| JBool (b : bool)
| JNum (n : Z)
| JStr (s : string)
| JRef (address : nat).

#[global] Instance JsVal_eq_dec : EqDecision JsVal.
Proof. solve_decision. Defined.

(** An entity row (warehouse, location, product, user or document) as it
    comes back from the backend: an object with named properties. *)
Abbreviation Entity := (gmap string JsVal).

(** [a === b] for two property reads; [None] is [undefined]. *)
Definition strictEq (a b : option JsVal) : bool := bool_decide (a = b).

(** [{ ...w, ...updates }]: properties of [updates] win. *)
Definition spread (w updates : Entity) : Entity := updates ∪ w.

(** ** Cache slots *)

(** The [data] property of a slot: [null] or an array of entities. *)
Abbreviation Data := (option (list Entity)).

Record Slot : Type := mkSlot {
  data : Data;
  timestamp : option Z;
  loading : bool
}.

#[global] Instance Slot_eq_dec : EqDecision Slot.
Proof. solve_decision. Defined.

(** [{ data: null, timestamp: null, loading: false }] *)
Definition emptySlot : Slot := mkSlot None None false.

Abbreviation Cache := (gmap string Slot).

(** The literal passed to [useState] (lines 16-25). *)
Definition initialCache : Cache :=
  <["warehouses" := emptySlot]> (
  <["locations" := emptySlot]> (
  <["products" := emptySlot]> (
  <["users" := emptySlot]> (
  <["receipts" := emptySlot]> (
  <["deliveries" := emptySlot]> (
  <["transfers" := emptySlot]> (
  <["adjustments" := emptySlot]> ∅))))))).

Definition masterKeys : list string :=
  ["warehouses"; "locations"; "products"; "users"].

Definition documentKeys : list string :=
  ["receipts"; "deliveries"; "transfers"; "adjustments"].

Definition cacheKeys : list string := masterKeys ++ documentKeys.

(** JavaScript truthiness of the two slot properties that are tested:
    an array is truthy even when empty, [null] is falsy; a number is truthy
    unless it is [0]. *)
Definition truthyData (d : Data) : bool :=
  match d with Some _ => true | None => false end.

Definition truthyTimestamp (t : option Z) : bool :=
  match t with Some n => negb (n =? 0) | None => false end.

(** ** Store updaters (the functions passed to [setCache]) *)

(** [{ ...prev[key], loading: b }]: spreading [undefined] yields no
    property, so a missing slot gives an object whose [data] and [timestamp]
    are [undefined] (collapsed with [null] here, both are falsy). *)
Definition withLoading (prev : Cache) (key : string) (b : bool) : Slot :=
  match prev !! key with
  | Some s => mkSlot (data s) (timestamp s) b
  | None => mkSlot None None b
  end.

(** Lines 57-60 and 78-81: [prev => ({...prev, [key]: {...prev[key], loading}})] *)
Definition setLoading (key : string) (b : bool) (prev : Cache) : Cache :=
  <[key := withLoading prev key b]> prev.

(** Lines 66-73: the updater that commits a fetched payload; [now] is the
    value of [Date.now()] when the updater runs. *)
Definition commitFetched (key : string) (d : list Entity) (now : Z)
    (prev : Cache) : Cache :=
  <[key := mkSlot (Some d) (Some now) false]> prev.

(** The second argument of [updateCache]: a function of the current data, or
    a literal value. *)
Inductive Updater : Type :=
| UFun (f : Data -> Data)
| UVal (v : Data).

(** Lines 87-96.  [None] is the [TypeError] of reading [prev[key].data] on a
    key that is not in the store; a literal updater never reads it. *)
Definition updateCache (key : string) (updater : Updater) (now : Z)
    (prev : Cache) : option Cache :=
  match updater with
  | UFun f =>
      match prev !! key with
      | Some s => Some (<[key := mkSlot (f (data s)) (Some now) false]> prev)
      | None => None
      end
  | UVal v => Some (<[key := mkSlot v (Some now) false]> prev)
  end.

(** Lines 99-104. *)
Definition invalidateCache (key : string) (prev : Cache) : Cache :=
  <[key := emptySlot]> prev.

(** Lines 107-118: [setCache] with the literal object, whatever the previous
    state. *)
Definition clearAllCache (prev : Cache) : Cache :=
  <["warehouses" := emptySlot]> (
  <["locations" := emptySlot]> (
  <["products" := emptySlot]> (
  <["users" := emptySlot]> (
  <["receipts" := emptySlot]> (
  <["deliveries" := emptySlot]> (
  <["transfers" := emptySlot]> (
  <["adjustments" := emptySlot]> ∅))))))).

(** ** Optimistic update helpers (lines 164-235 and 255-267) *)

(** [current ? [...current, x] : [x]] *)
Definition appendEntry (x : Entity) (current : Data) : Data :=
  match current with
  | Some l => Some (l ++ [x])
  | None => Some [x]
  end.

(** [current ? current.map(w => w.id === id ? { ...w, ...updates } : w) : current] *)
Definition mergeById (id : option JsVal) (updates : Entity) (current : Data) : Data :=
  match current with
  | Some l =>
      Some (map (fun w => if strictEq (w !! "id") id then spread w updates else w) l)
  | None => current
  end.

(** [current ? current.map(l => l.id === e.id ? e : l) : current] *)
Definition replaceById (e : Entity) (current : Data) : Data :=
  match current with
  | Some l =>
      Some (map (fun w => if strictEq (w !! "id") (e !! "id") then e else w) l)
  | None => current
  end.

(** [current ? current.filter(w => w.id !== id) : current] *)
Definition removeById (id : option JsVal) (current : Data) : Data :=
  match current with
  | Some l => Some (List.filter (fun w => negb (strictEq (w !! "id") id)) l)
  | None => current
  end.

Definition addWarehouse (warehouse : Entity) :=
  updateCache "warehouses" (UFun (appendEntry warehouse)).
Definition updateWarehouse (id : option JsVal) (updates : Entity) :=
  updateCache "warehouses" (UFun (mergeById id updates)).
Definition removeWarehouse (id : option JsVal) :=
  updateCache "warehouses" (UFun (removeById id)).

Definition addLocation (location : Entity) :=
  updateCache "locations" (UFun (appendEntry location)).
Definition updateLocationCache (location : Entity) :=
  updateCache "locations" (UFun (replaceById location)).

Definition addProduct (product : Entity) :=
  updateCache "products" (UFun (appendEntry product)).
Definition updateProductCache (product : Entity) :=
  updateCache "products" (UFun (replaceById product)).
Definition removeProduct (id : option JsVal) :=
  updateCache "products" (UFun (removeById id)).

Definition addUser (user : Entity) :=
  updateCache "users" (UFun (appendEntry user)).
Definition updateUser (id : option JsVal) (updates : Entity) :=
  updateCache "users" (UFun (mergeById id updates)).
Definition updateUserCache (user : Entity) :=
  updateCache "users" (UFun (replaceById user)).
Definition removeUser (id : option JsVal) :=
  updateCache "users" (UFun (removeById id)).

Definition addDocument (type : string) (document : Entity) :=
  updateCache type (UFun (appendEntry document)).
Definition updateDocument (type : string) (id : option JsVal) (updates : Entity) :=
  updateCache type (UFun (mergeById id updates)).
Definition removeDocument (type : string) (id : option JsVal) :=
  updateCache type (UFun (removeById id)).

(** The helpers exported through the context value, as one type, so that
    statements can range over all of them. *)
Inductive Helper : Type :=
| HAddWarehouse (warehouse : Entity)
| HUpdateWarehouse (id : option JsVal) (updates : Entity)
| HRemoveWarehouse (id : option JsVal)
| HAddLocation (location : Entity)
| HUpdateLocationCache (location : Entity)
| HAddProduct (product : Entity)
| HUpdateProductCache (product : Entity)
| HRemoveProduct (id : option JsVal)
| HAddUser (user : Entity)
| HUpdateUser (id : option JsVal) (updates : Entity)
| HUpdateUserCache (user : Entity)
| HRemoveUser (id : option JsVal)
| HAddDocument (type : string) (document : Entity)
| HUpdateDocument (type : string) (id : option JsVal) (updates : Entity)
| HRemoveDocument (type : string) (id : option JsVal).

Definition runHelper (h : Helper) : Z -> Cache -> option Cache :=
  match h with
  | HAddWarehouse w => addWarehouse w
  | HUpdateWarehouse id u => updateWarehouse id u
  | HRemoveWarehouse id => removeWarehouse id
  | HAddLocation l => addLocation l
  | HUpdateLocationCache l => updateLocationCache l
  | HAddProduct p => addProduct p
  | HUpdateProductCache p => updateProductCache p
  | HRemoveProduct id => removeProduct id
  | HAddUser u => addUser u
  | HUpdateUser id u => updateUser id u
  | HUpdateUserCache u => updateUserCache u
  | HRemoveUser id => removeUser id
  | HAddDocument t d => addDocument t d
  | HUpdateDocument t id u => updateDocument t id u
  | HRemoveDocument t id => removeDocument t id
  end.

(** The slot a helper writes. *)
Definition helperKey (h : Helper) : string :=
  match h with
  | HAddWarehouse _ | HUpdateWarehouse _ _ | HRemoveWarehouse _ => "warehouses"
  | HAddLocation _ | HUpdateLocationCache _ => "locations"
  | HAddProduct _ | HUpdateProductCache _ | HRemoveProduct _ => "products"
  | HAddUser _ | HUpdateUser _ _ | HUpdateUserCache _ | HRemoveUser _ => "users"
  | HAddDocument t _ | HUpdateDocument t _ _ | HRemoveDocument t _ => t
  end.

(** What a helper is meant to do to a cached sequence. *)
Inductive Intent : Type :=
| Add (x : Entity)
| Merge (id : option JsVal) (updates : Entity)
| Replace (e : Entity)
| Remove (id : option JsVal).

Definition helperIntent (h : Helper) : Intent :=
  match h with
  | HAddWarehouse x | HAddLocation x | HAddProduct x | HAddUser x
  | HAddDocument _ x => Add x
  | HUpdateWarehouse id u | HUpdateUser id u | HUpdateDocument _ id u => Merge id u
  | HUpdateLocationCache e | HUpdateProductCache e | HUpdateUserCache e => Replace e
  | HRemoveWarehouse id | HRemoveProduct id | HRemoveUser id
  | HRemoveDocument _ id => Remove id
  end.

(** ** Asynchronous functions *)

(** What a promise can reject with. *)
Inductive Err : Type :=
| TypeError
| ApiError (message : string).

(** What awaiting a backend call yields: the parsed payload, or the error it
    threw. *)
Inductive Outcome : Type :=
| Fulfilled (d : list Entity)
| Failed (e : Err).

(** The body of an [async] function of the cache, as a tree of its effects.
    [F] is the type of the fetch functions that can be passed in.
    - [DateNow k]: read [Date.now()];
    - [SetCache u k]: [setCache(prev => u now prev)], where [now] is the
      clock when the updater runs;
    - [Await f k]: call [f()] and suspend until it settles;
    - [SetInterval cb k]: return a promise that a 100ms interval resolves
      the first time [cb] yields a value. *)
Inductive Async (F A : Type) : Type :=
| Resolve (a : A)
| Reject (e : Err)
| DateNow (k : Z -> Async F A)
| SetCache (u : Z -> Cache -> Cache) (k : Async F A)
| Await (fetchFunction : F) (k : Outcome -> Async F A)
| SetInterval (callback : unit -> option Data) (k : Data -> Async F A).

Arguments Resolve {F A} a.
Arguments Reject {F A} e.
Arguments DateNow {F A} k.
Arguments SetCache {F A} u k.
Arguments Await {F A} fetchFunction k.
Arguments SetInterval {F A} callback k.

(** [p.then(f)], also the sequencing of statements in an [async] body. *)
Fixpoint bind {F A B : Type} (p : Async F A) (f : A -> Async F B) : Async F B :=
  match p with
  | Resolve a => f a
  | Reject e => Reject e
  | DateNow k => DateNow (fun now => bind (k now) f)
  | SetCache u k => SetCache u (bind k f)
  | Await fn k => Await fn (fun o => bind (k o) f)
  | SetInterval cb k => SetInterval cb (fun d => bind (k d) f)
  end.

Notation "'let*' x ':=' p 'in' q" := (bind p (fun x => q))
  (at level 10, x name, p at level 100, q at level 200, only parsing).

(** Line 28. *)
Definition CACHE_DURATION : Z := 5 * 60 * 1000.

(** Line 141. *)
Definition DOCUMENT_CACHE_DURATION : Z := 1 * 60 * 1000.

(** A timestamp used as a number: [null] converts to [0]. *)
Definition toNumber (t : option Z) : Z := default 0 t.

Section CacheFunctions.
Context {F : Type}.

(** Lines 31-35, reading the snapshot [cache] of the enclosing render.
    Reading a property of a missing slot throws. *)
Definition isCacheValid (cache : Cache) (key : string) : Async F bool :=
  match cache !! key with
  | None => Reject TypeError
  | Some cached =>
      if negb (truthyData (data cached)) || negb (truthyTimestamp (timestamp cached))
      then Resolve false
      else DateNow (fun now =>
             Resolve (now - toNumber (timestamp cached) <? CACHE_DURATION))
  end.

(** The interval callback of lines 47-52.  It closes over the same
    snapshot [cache] as the call that installed it. *)
Definition checkInterval (cache : Cache) (key : string) (_ : unit) : option Data :=
  match cache !! key with
  | Some s => if loading s then None else Some (data s)
  | None => None
  end.

(** Lines 62-83: what follows [await fetchFunction()], the rest of the
    [try] block when it fulfils and the [catch] block when it throws. *)
Definition afterFetch (key : string) (o : Outcome) : Async F Data :=
  match o with
  | Fulfilled d =>
      SetCache (commitFetched key d) (Resolve (Some d))
  | Failed error =>
      SetCache (fun _ => setLoading key false) (Reject error)
  end.

(** Lines 38-84.  [cache] is the snapshot captured by [useCallback]. *)
Definition fetchWithCache (cache : Cache) (key : string) (fetchFunction : F)
    (forceRefresh : bool) : Async F Data :=
  let* valid := (if forceRefresh then Resolve false else isCacheValid cache key) in
  match cache !! key with
  | None => Reject TypeError
  | Some s =>
      if valid then Resolve (data s)
      else if loading s then
        SetInterval (checkInterval cache key) Resolve
      else
        SetCache (fun _ => setLoading key true)
          (Await fetchFunction (afterFetch key))
  end.
End CacheFunctions.

(** The backend calls of the [api] module that the cache and the receipts page
    issue. *)
Inductive ApiCall : Type :=
| ApiGetWarehouses
| ApiGetLocations (warehouseId : option JsVal)
| ApiGetProducts
| ApiGetUsers
| ApiGetDocuments (type status warehouseId : string)
| ApiCreateDocument (type : string) (formData : Entity)
| ApiUpdateDocument (type : string) (id : option JsVal) (formData : Entity)
| ApiConfirmDocument (type : string) (id : option JsVal).

(** Lines 121-135. *)
Definition getWarehouses (cache : Cache) (forceRefresh : bool) :=
  fetchWithCache cache "warehouses" ApiGetWarehouses forceRefresh.
Definition getLocations (cache : Cache) (warehouseId : option JsVal)
    (forceRefresh : bool) :=
  fetchWithCache cache "locations" (ApiGetLocations warehouseId) forceRefresh.
Definition getProducts (cache : Cache) (forceRefresh : bool) :=
  fetchWithCache cache "products" ApiGetProducts forceRefresh.
Definition getUsers (cache : Cache) (forceRefresh : bool) :=
  fetchWithCache cache "users" ApiGetUsers forceRefresh.

(** A string used as a condition: truthy unless empty. *)
Definition truthyString (s : string) : bool :=
  match s with EmptyString => false | String _ _ => true end.

(** [doc => doc.status === statusFilter] *)
Definition hasStatus (statusFilter : string) (doc : Entity) : bool :=
  strictEq (doc !! "status") (Some (JStr statusFilter)).

(** The documents a caller of [getDocuments] is handed, given the unfiltered
    list. *)
Definition visibleDocuments (statusFilter : string) (l : list Entity) : list Entity :=
  if truthyString statusFilter then List.filter (hasStatus statusFilter) l else l.

(** Lines 147-150 and 155-159: [statusFilter ? data.filter(...) : data];
    calling [filter] on [null] throws. *)
Definition filterByStatus (statusFilter : string) (d : Data) : Async ApiCall Data :=
  if truthyString statusFilter then
    match d with
    | Some l => Resolve (Some (List.filter (hasStatus statusFilter) l))
    | None => Reject TypeError
    end
  else Resolve d.

(** Lines 138-161.  The function is not [async]: reading [cached.data] of
    a missing slot at line 144 throws to the caller, where the [async]
    [fetchWithCache] would return a rejected promise; both ways of failing
    are [Reject] here. *)
Definition getDocuments (cache : Cache) (type statusFilter : string)
    (forceRefresh : bool) : Async ApiCall Data :=
  let cacheKey := type in
  let refetch :=
    (let* data := fetchWithCache cache cacheKey (ApiGetDocuments type "" "") forceRefresh in
     filterByStatus statusFilter data) in
  if forceRefresh then refetch
  else
    match cache !! cacheKey with
    | None => Reject TypeError
    | Some cached =>
        if truthyData (data cached) && truthyTimestamp (timestamp cached) then
          DateNow (fun now =>
            if now - toNumber (timestamp cached) <? DOCUMENT_CACHE_DURATION
            then filterByStatus statusFilter (data cached)
            else refetch)
        else refetch
    end.

(** ** Running asynchronous functions *)

(** The part of the world the cache functions act on: the React state
    (updaters are applied in the order they are queued), the clock and the
    log of fetch functions invoked so far. *)
Record World (F : Type) : Type := mkWorld {
  store : Cache;
  clock : Z;
  calls : list F
}.

Arguments mkWorld {F} store clock calls.
Arguments store {F} w.
Arguments clock {F} w.
Arguments calls {F} w.

(** A call that has run until it settled or suspended. *)
Inductive Task (F A : Type) : Type :=
| Settled (r : Err + A)
| Awaiting (fetchFunction : F) (k : Outcome -> Async F A)
| Polling (callback : unit -> option Data) (k : Data -> Async F A).

Arguments Settled {F A} r.
Arguments Awaiting {F A} fetchFunction k.
Arguments Polling {F A} callback k.

Section Running.
Context {F A : Type}.

(** Run a body up to its first suspension point. *)
Fixpoint runSync (p : Async F A) (w : World F) : Task F A * World F :=
  match p with
  | Resolve a => (Settled (inr a), w)
  | Reject e => (Settled (inl e), w)
  | DateNow k => runSync (k (clock w)) w
  | SetCache u k => runSync k (mkWorld (u (clock w) (store w)) (clock w) (calls w))
  | Await fn k => (Awaiting fn k, mkWorld (store w) (clock w) (calls w ++ [fn]))
  | SetInterval cb k => (Polling cb k, w)
  end.

(** The awaited fetch function settles with [o]. *)
Definition deliver (o : Outcome) (t : Task F A) (w : World F) : Task F A * World F :=
  match t with
  | Awaiting _ k => runSync (k o) w
  | _ => (t, w)
  end.

(** The interval fires once. *)
Definition tick (t : Task F A) (w : World F) : Task F A * World F :=
  match t with
  | Polling cb k =>
      match cb tt with
      | Some d => runSync (k d) w
      | None => (t, w)
      end
  | _ => (t, w)
  end.

(** The interval fires [n] times. *)
Fixpoint ticks (n : nat) (t : Task F A) (w : World F) : Task F A * World F :=
  match n with
  | O => (t, w)
  | S n' => let '(t', w') := tick t w in ticks n' t' w'
  end.

(** Several calls issued one after the other in the same turn of the event
    loop: each runs to its first suspension point before the next starts. *)
Fixpoint startAll (ps : list (Async F A)) (w : World F)
    : list (Task F A) * World F :=
  match ps with
  | [] => ([], w)
  | p :: ps' =>
      let '(t, w1) := runSync p w in
      let '(ts, w2) := startAll ps' w1 in
      (t :: ts, w2)
  end.

Definition isAwaiting (t : Task F A) : bool :=
  match t with Awaiting _ _ => true | _ => false end.

Definition isPolling (t : Task F A) : bool :=
  match t with Polling _ _ => true | _ => false end.
End Running.

(** ** Session ([src/AuthContext.jsx] and the [Layout] component) *)

(** The pieces of application state a logout could touch: the browser's
    [localStorage], the [user] state of [AuthProvider], the [cache] state of
    [CacheProvider] (mounted above the router, so it survives navigation)
    and the current route. *)
Record App : Type := mkApp {
  localStorage : gmap string string;
  user : option Entity;
  cacheState : Cache;
  route : string
}.

(** [AuthContext.jsx], lines 46-49. *)
Definition logout (a : App) : App :=
  mkApp (delete "token" (localStorage a)) None (cacheState a) (route a).

(** [Layout], [handleLogout] (lines 16-19): [logout(); navigate('/login')]. *)
Definition handleLogout (a : App) : App :=
  let a' := logout a in
  mkApp (localStorage a') (user a') (cacheState a') "/login".

(** [AuthContext.jsx], line 52: [user?.role === 'ADMIN']. *)
Definition isAdmin (user : option Entity) : bool :=
  strictEq (match user with Some u => u !! "role" | None => None end)
           (Some (JStr "ADMIN")).

(** ** The receipts page ([src/pages/Receipts.jsx]) *)

(** Lines 170-174: the edit button of a table row. *)
Definition editOffered (doc : Entity) : bool :=
  strictEq (doc !! "status") (Some (JStr "DRAFT")).

(** Lines 175-179: the confirm button of a table row. *)
Definition confirmOffered (doc : Entity) (isAdmin : bool) : bool :=
  strictEq (doc !! "status") (Some (JStr "DRAFT")) && isAdmin.

(** What a handler of the page does, in order. *)
Inductive PageEffect : Type :=
| EConfirmDialog (message : string)
| ECallApi (c : ApiCall)
| ECacheHelper (h : Helper)
| EInvalidateCache (key : string)
| ELoadData
| ESetDocuments (f : list Entity -> list Entity)
| ESetShowModal (b : bool)
| EAlert (text : string) (error : Err).

(** Lines 109-119.  [accepted] is the answer to the confirmation dialog,
    [response] what [api.confirmDocument] settles with. *)
Definition handleConfirm (docId : option JsVal) (accepted : bool)
    (response : Err + Entity) : list PageEffect :=
  EConfirmDialog "Confirm this receipt? This will update stock levels." ::
  (if negb accepted then []
   else
     ECallApi (ApiConfirmDocument "receipts" docId) ::
     match response with
     | inr _ => [EInvalidateCache "receipts"; ELoadData]
     | inl error => [EAlert "Failed to confirm: " error]
     end).

(** Lines 86-107.  [editingDoc] is the document being edited, if any;
    [response] what the backend call settles with. *)
Definition handleSubmit (editingDoc : option Entity) (formData : Entity)
    (response : Err + Entity) : list PageEffect :=
  match editingDoc with
  | Some doc =>
      ECallApi (ApiUpdateDocument "receipts" (doc !! "id") formData) ::
      match response with
      | inr updated =>
          [ECacheHelper (HUpdateDocument "receipts" (doc !! "id") updated);
           ESetDocuments
             (map (fun d => if strictEq (d !! "id") (doc !! "id") then updated else d));
           ESetShowModal false]
      | inl error =>
          [EAlert "Failed to save receipt: " error;
           EInvalidateCache "receipts"; ELoadData]
      end
  | None =>
      ECallApi (ApiCreateDocument "receipts" formData) ::
      match response with
      | inr newDoc =>
          [ECacheHelper (HAddDocument "receipts" newDoc);
           ESetDocuments (fun prev => prev ++ [newDoc]);
           ESetShowModal false]
      | inl error =>
          [EAlert "Failed to save receipt: " error;
           EInvalidateCache "receipts"; ELoadData]
      end
  end.

(** An effect that patches the cached list in place. *)
Definition patchesCache (e : PageEffect) : bool :=
  match e with ECacheHelper _ => true | _ => false end.

(** ** Document status in the database (schema migration) *)

(** [status text NOT NULL DEFAULT 'DRAFT' CHECK (status IN ('DRAFT', 'CONFIRMED'))] *)
Inductive DocStatus : Type := DRAFT | CONFIRMED.

#[global] Instance DocStatus_eq_dec : EqDecision DocStatus.
Proof. solve_decision. Defined.

(** Policy "Authenticated users can insert draft documents":
    [WITH CHECK (status = 'DRAFT')]. *)
Definition documents_insert_check (new : DocStatus) : bool :=
  bool_decide (new = DRAFT).

(** Policy "Authenticated users can update draft documents":
    [USING (status = 'DRAFT')] on the stored row. *)
Definition documents_update_using (old : DocStatus) : bool :=
  bool_decide (old = DRAFT).

(** The same policy, [WITH CHECK] on the written row: [status = 'DRAFT'], or
    [status = 'CONFIRMED'] and the user has role ['ADMIN']. *)
Definition documents_update_check (new : DocStatus) (adminUser : bool) : bool :=
  bool_decide (new = DRAFT) || (bool_decide (new = CONFIRMED) && adminUser).

(** An [UPDATE] of a document row under row-level security: it takes effect
    when both clauses hold and leaves the row as it is otherwise.  There is
    no [DELETE] policy on [documents]. *)
Definition documents_update (adminUser : bool) (old new : DocStatus) : DocStatus :=
  if documents_update_using old && documents_update_check new adminUser
  then new else old.

(** ** The stock ledger (the report displayed by [src/pages/Ledger.jsx]) *)

(** Quantities are [numeric] values of the database (the columns
    [qty_change] and [quantity] of the schema migration; the receipt form
    steps by 0.01): exact decimals, with exact addition.  They are taken in
    the rationals in lowest terms, which contain every decimal. *)
Abbreviation Numeric := Qc.

(** The decimal with the given digits and number of decimal places:
    [decimal 250 2] is 2.50. *)
Definition decimal (digits : Z) (places : nat) : Numeric :=
  Q2Qc (digits # Z.to_pos (10 ^ Z.of_nat places)).

(** The two properties of a ledger entry the invariant is about (the page
    reads [entry.qty_change] and [entry.running_balance], lines 115 and
    134). *)
Record LedgerEntry : Type := mkEntry {
  qty_change : Numeric;
  running_balance : Numeric
}.

(** Modelled from the spec: the ledger report of the backend
    ([GET /reports/ledger]), which is not part of the sources at hand.
    Section 3: running balance at entry i is the running balance at entry
    i-1 plus the quantity change of entry i, seeded by the opening stock. *)
Fixpoint ledgerFrom (opening : Numeric) (changes : list Numeric)
    : list LedgerEntry :=
  match changes with
  | [] => []
  | q :: qs => mkEntry q (opening + q)%Qc :: ledgerFrom (opening + q)%Qc qs
  end.



(** ** Vocabulary of the statements *)

(** What carrying out an intent on the cached sequence [l] means for the
    resulting sequence [l'], said on the entries and their properties:
    - adding appends the entry at the end;
    - merging keeps the length and every position; an entry whose id differs
      is unchanged, and an entry whose id matches has, for every property
      name, the value of the updates when they have the property and its own
      value otherwise;
    - replacing keeps the length and every position; an entry whose id
      differs is unchanged, and an entry whose id matches becomes the given
      entry;
    - removing leaves exactly the entries whose id differs, each as often
      as before and in the same order. *)
Definition carriedOut (i : Intent) (l l' : list Entity) : Prop :=
  match i with
  | Add x => l' = l ++ [x]
  | Merge id updates =>
      length l' = length l ∧
      ∀ (n : nat) (w : Entity), l !! n = Some w →
        ∃ w' : Entity, l' !! n = Some w'
          ∧ (w !! "id" ≠ id → w' = w)
          ∧ (w !! "id" = id →
             ∀ p : string,
               w' !! p = match updates !! p with
                         | Some v => Some v
                         | None => w !! p
                         end)
  | Replace e =>
      length l' = length l ∧
      ∀ (n : nat) (w : Entity), l !! n = Some w →
        ∃ w' : Entity, l' !! n = Some w'
          ∧ (w !! "id" ≠ e !! "id" → w' = w)
          ∧ (w !! "id" = e !! "id" → w' = e)
  | Remove id => l' = filter (fun w : Entity => w !! "id" ≠ id) l
  end.

(** The specification's words for the list a caller of [getDocuments] is
    handed: "when statusFilter is non-empty ... exactly the cached documents
    whose status equals statusFilter", each as often as in the unfiltered
    list and in its order; with the empty filter, the unfiltered list. *)
Definition documentsWithStatus (statusFilter : string) (l : list Entity)
    : list Entity :=
  if decide (statusFilter = "") then l
  else filter (fun doc : Entity => doc !! "status" = Some (JStr statusFilter)) l.


(** The data a helper leaves in a slot whose data was [null]. *)
Definition onNull (i : Intent) : Data :=
  match i with
  | Add x => Some [x]
  | Merge _ _ | Replace _ | Remove _ => None
  end.

(** "Every helper is a no-op on a slot whose data is null." *)
Definition helpersKeepNull : Prop :=
  ∀ (h : Helper) (now : Z) (prev next : Cache) (s : Slot),
    prev !! helperKey h = Some s → data s = None →
    runHelper h now prev = Some next →
    ∃ s', next !! helperKey h = Some s' ∧ data s' = None.

(** "After a user logs out every cache slot is in the empty state." *)
Definition logoutClearsCache : Prop :=
  ∀ a : App, Forall (fun k => cacheState (handleLogout a) !! k = Some emptySlot) cacheKeys.

(** The operations on the store that are scoped to one key. *)
Inductive CacheOp : Type :=
| OpUpdateCache (key : string) (updater : Updater)
| OpInvalidateCache (key : string)
| OpHelper (h : Helper).

Definition opKey (op : CacheOp) : string :=
  match op with
  | OpUpdateCache key _ | OpInvalidateCache key => key
  | OpHelper h => helperKey h
  end.

Definition runOp (op : CacheOp) (now : Z) (prev : Cache) : option Cache :=
  match op with
  | OpUpdateCache key updater => updateCache key updater now prev
  | OpInvalidateCache key => Some (invalidateCache key prev)
  | OpHelper h => runHelper h now prev
  end.

(** Whether a slot read at time [now] is served without a fetch by
    [fetchWithCache]. *)
Definition fresh (s : Slot) (now : Z) : bool :=
  truthyData (data s) && truthyTimestamp (timestamp s)
  && (now - toNumber (timestamp s) <? CACHE_DURATION).

(** Every helper is [updateCache] on its key with one of the four list
    transformations. *)
Definition helperFunction (h : Helper) : Data -> Data :=
  match helperIntent h with
  | Add x => appendEntry x
  | Merge id u => mergeById id u
  | Replace e => replaceById e
  | Remove id => removeById id
  end.

(** ** Concrete inputs used in examples *)

Definition mainWarehouse : Entity := {[ "id" := JNum 1; "name" := JStr "Main" ]}.
Definition annexWarehouse : Entity := {[ "id" := JNum 2; "name" := JStr "Annex" ]}.

(** A store whose [warehouses] slot was fetched at time 5. *)
Definition twoWarehouses : Cache :=
  <["warehouses" := mkSlot (Some [mainWarehouse; annexWarehouse]) (Some 5) false]>
    initialCache.

(** [updateWarehouse(1, { name: 'Central' })] *)
Definition renameMain : Helper :=
  HUpdateWarehouse (Some (JNum 1)) {[ "name" := JStr "Central" ]}.

(** Two receipts, one in each status. *)
Definition draftReceipt : Entity := {[ "id" := JNum 1; "status" := JStr "DRAFT" ]}.
Definition confirmedReceipt : Entity :=
  {[ "id" := JNum 2; "status" := JStr "CONFIRMED" ]}.

(** A store whose [receipts] slot was fetched at time 1000. *)
Definition receiptsFetched : Cache :=
  <["receipts" := mkSlot (Some [draftReceipt; confirmedReceipt]) (Some 1000) false]>
    initialCache.

(** The world of the receipts page at time 30000, before any backend call
    is logged, with the store holding the receipts fetched at time 1000. *)
Definition receiptsAt30000 : World ApiCall := mkWorld receiptsFetched 30000 [].

(** A signed-in administrator. *)
Definition administrator : option Entity :=
  Some {[ "id" := JNum 7; "role" := JStr "ADMIN" ]}.

(** ** More vocabulary: sequences of operations *)

(** The store holds a slot for each of the eight entity classes. *)
Definition hasAllSlots (c : Cache) : Prop :=
  Forall (fun k => is_Some (c !! k)) cacheKeys.

(** A sequence of operations on the store, each with the time at which its
    updater runs.  An updater that throws aborts the sequence. *)
Fixpoint runOps (ops : list (CacheOp * Z)) (c : Cache) : option Cache :=
  match ops with
  | [] => Some c
  | (op, now) :: ops' =>
      match runOp op now c with
      | Some c' => runOps ops' c'
      | None => None
      end
  end.

(** The identifiers of a cached sequence, in order. *)
Definition idsOf (l : list Entity) : list (option JsVal) :=
  map (fun w => w !! "id") l.

(** How carrying out an intent shows in the identifiers of the sequence. *)
Definition idsAfter (i : Intent) (l l' : list Entity) : Prop :=
  match i with
  | Add x => idsOf l' = idsOf l ++ [x !! "id"]
  | Merge id updates =>
      (updates !! "id" = None ∨ updates !! "id" = id → idsOf l' = idsOf l)
      ∧ (id ∉ idsOf l → l' = l)
  | Replace e => idsOf l' = idsOf l ∧ ((e !! "id") ∉ idsOf l → l' = l)
  | Remove id => (id ∉ idsOf l') ∧ (id ∉ idsOf l → l' = l)
  end.

(** ** Session, continued ([src/AuthContext.jsx], the [api] module, the
    [RoleGuard] module and [PrivateRoute] of the [App] component) *)

(** The payload of [api.login]: [data.access_token] and [data.user]. *)
Record LoginData : Type := mkLoginData {
  access_token : string;
  loginUser : Entity
}.

(** [AuthContext.jsx], lines 32-37.  [response] is what [api.login] settles
    with; when it throws, [login] throws before it has touched anything.
    The second component is what the caller's [await login(...)] yields. *)
Definition login (response : Err + LoginData) (a : App) : App * (Err + Entity) :=
  match response with
  | inr data =>
      (mkApp (<["token" := access_token data]> (localStorage a))
             (Some (loginUser data)) (cacheState a) (route a),
       inr (loginUser data))
  | inl error => (a, inl error)
  end.

(** [AuthContext.jsx], lines 19-21: the effect run when the provider
    mounts reads the token and calls [api.getMe] when it is truthy. *)
Definition restoreStarts (a : App) : bool :=
  match localStorage a !! "token" with
  | Some token => truthyString token
  | None => false
  end.

(** Lines 22-25: the callbacks of that [api.getMe] call.  They run when the
    request settles, with [response], on the state [a] of that later
    moment: whatever happened since the mount (a login on the public login
    page, say) has already taken effect. *)
Definition restoreSettles (response : Err + Entity) (a : App) : App :=
  match response with
  | inr me => mkApp (localStorage a) (Some me) (cacheState a) (route a)
  | inl _ => mkApp (delete "token" (localStorage a)) (user a) (cacheState a) (route a)
  end.

(** [AuthContext.jsx], lines 53-55. *)
Definition isStaff (user : option Entity) : bool :=
  strictEq (match user with Some u => u !! "role" | None => None end)
           (Some (JStr "STAFF")).
Definition canConfirm (user : option Entity) : bool := isAdmin user.
Definition canEditMasterData (user : option Entity) : bool := isAdmin user.

(** [getAuthHeaders] of the [api] module: the [Authorization] header is
    spread in only for a truthy token. *)
Definition getAuthHeaders (a : App) : gmap string string :=
  match localStorage a !! "token" with
  | Some token =>
      if truthyString token then
        <["Authorization" := String.append "Bearer " token]>
          {[ "Content-Type" := "application/json" ]}
      else {[ "Content-Type" := "application/json" ]}
  | None => {[ "Content-Type" := "application/json" ]}
  end.

(** What a guarded route shows. *)
Inductive RouteView : Type :=
| ShowLoading
| ShowChildren
| NavigateTo (path : string).

(** [PrivateRoute] of the [App] component (lines 25-33). *)
Definition PrivateRoute (user : option Entity) (loading : bool) : RouteView :=
  if loading then ShowLoading
  else match user with
       | Some _ => ShowChildren
       | None => NavigateTo "/login"
       end.

(** [roles.includes(role)] for an array of role names. *)
Definition includesRole (roles : list string) (role : option JsVal) : bool :=
  existsb (fun r => strictEq role (Some (JStr r))) roles.

(** [RoleGuard], lines 16-24. *)
Definition RoleGuard {V : Type} (roles : list string) (user : option Entity)
    (children fallback : V) : V :=
  match user with
  | None => fallback
  | Some u => if includesRole roles (u !! "role") then children else fallback
  end.

(** The argument of [useRole]: one role name or an array of them. *)
Inductive RolesArg : Type :=
| OneRole (role : string)
| ManyRoles (roles : list string).

(** [useRole], lines 33-43. *)
Definition useRole (roles : RolesArg) (user : option Entity) : bool :=
  match user with
  | None => false
  | Some u =>
      match roles with
      | ManyRoles l => includesRole l (u !! "role")
      | OneRole r => strictEq (u !! "role") (Some (JStr r))
      end
  end.

(** [AdminOnly] and [StaffAndAdmin], lines 48-57. *)
Definition AdminOnly {V : Type} (user : option Entity) (children fallback : V) : V :=
  RoleGuard ["ADMIN"] user children fallback.
Definition StaffAndAdmin {V : Type} (user : option Entity) (children fallback : V) : V :=
  RoleGuard ["ADMIN"; "STAFF"] user children fallback.

(** What can happen to the session after the provider has mounted: logins
    and logouts, and the answer to the [api.getMe] call of the mount
    effect. *)
Inductive SessionEvent : Type :=
| EvLogin (response : Err + LoginData)
| EvLogout
| EvHandleLogout
| EvRestoreSettles (response : Err + Entity).

Definition sessionStep (a : App) (e : SessionEvent) : App :=
  match e with
  | EvLogin response => (login response a).1
  | EvLogout => logout a
  | EvHandleLogout => handleLogout a
  | EvRestoreSettles response => restoreSettles response a
  end.

Definition sessionRun (events : list SessionEvent) (a : App) : App :=
  fold_left sessionStep events a.

(** The events a user causes: logins and logouts. *)
Definition byUser (e : SessionEvent) : bool :=
  match e with
  | EvRestoreSettles _ => false
  | EvLogin _ | EvLogout | EvHandleLogout => true
  end.

(** A signed-in user is backed by a stored token. *)
Definition tokenBacksUser (a : App) : Prop :=
  user a ≠ None → is_Some (localStorage a !! "token").

(** ** The receipt form ([src/pages/Receipts.jsx], lines 19-84) *)

(** The line objects of the form live in a heap and the [lines] array holds
    references to them: [updateLine] copies the array but writes to the
    line object, which the array of the previous state references too. *)
Abbreviation Heap := (gmap nat Entity).

(** The [formData] state: three strings and the array of line references. *)
Record FormData : Type := mkForm {
  date : string;
  warehouse_id : string;
  supplier_name : string;
  lines : list nat
}.

(** [{ product_id: '', to_location_id: '', quantity: 0 }] *)
Definition blankLine : Entity :=
  {[ "product_id" := JStr ""; "to_location_id" := JStr ""; "quantity" := JNum 0 ]}.

(** [l.filter((_, i) => keep(i))], counting from [i]. *)
Fixpoint filterIndex {A : Type} (keep : nat -> bool) (i : nat) (l : list A) : list A :=
  match l with
  | [] => []
  | x :: l' =>
      if keep i then x :: filterIndex keep (S i) l' else filterIndex keep (S i) l'
  end.

(** Lines 66-71: a new line object is allocated and appended. *)
Definition addLine (h : Heap) (formData : FormData) : Heap * FormData :=
  let r := base.fresh (dom h) in
  (<[r := blankLine]> h,
   mkForm (date formData) (warehouse_id formData) (supplier_name formData)
          (lines formData ++ [r])).

(** Lines 73-78: [lines.filter((_, i) => i !== index)]; no object is
    touched. *)
Definition removeLine (index : nat) (formData : FormData) : FormData :=
  mkForm (date formData) (warehouse_id formData) (supplier_name formData)
         (filterIndex (fun i => negb (i =? index)%nat) 0 (lines formData)).

(** Lines 80-84: [newLines[index][field] = value] on a copy of the array.
    [None] is the [TypeError] of writing a property of [undefined], when
    there is no line at [index]; the state is then not set. *)
Definition updateLine (index : nat) (field : string) (value : JsVal)
    (h : Heap) (formData : FormData) : option (Heap * FormData) :=
  match lines formData !! index with
  | Some r =>
      match h !! r with
      | Some line =>
          Some (<[r := <[field := value]> line]> h,
                mkForm (date formData) (warehouse_id formData)
                       (supplier_name formData) (lines formData))
      | None => None
      end
  | None => None
  end.

(** The line object the form shows at position [i]. *)
Definition lineAt (h : Heap) (formData : FormData) (i : nat) : option Entity :=
  match lines formData !! i with
  | Some r => h !! r
  | None => None
  end.

(** The references of the form are distinct and allocated. *)
Definition formOk (h : Heap) (formData : FormData) : Prop :=
  NoDup (lines formData) ∧ Forall (fun r => is_Some (h !! r)) (lines formData).

(** ** The stock page ([src/pages/Stock.jsx]) *)

Module StockPage.

(** The [filters] state: three strings, empty for "all". *)
Record Filters : Type := mkFilters {
  product_id : string;
  warehouse_id : string;
  category : string
}.

(** [ids.includes(x)] *)
Definition includes (ids : list (option JsVal)) (x : option JsVal) : bool :=
  existsb (strictEq x) ids.

(** [s => s.prop === value] for a filter string. *)
Definition propIs (prop value : string) (s : Entity) : bool :=
  strictEq (s !! prop) (Some (JStr value)).

(** Lines 47-67: the rows shown, filtered in memory. *)
Definition stock (allStock products : list Entity) (filters : Filters) : list Entity :=
  let filtered := allStock in
  let filtered :=
    if truthyString (product_id filters)
    then List.filter (propIs "product_id" (product_id filters)) filtered
    else filtered in
  let filtered :=
    if truthyString (warehouse_id filters)
    then List.filter (propIs "warehouse_id" (warehouse_id filters)) filtered
    else filtered in
  let filtered :=
    if truthyString (category filters) then
      let categoryProductIds :=
        map (fun p => p !! "id")
            (List.filter (propIs "category" (category filters)) products) in
      List.filter (fun s => includes categoryProductIds (s !! "product_id")) filtered
    else filtered in
  filtered.

(** [[...new Set(values)]]: the distinct values in order of first
    occurrence; [seen] holds the values already emitted. *)
Fixpoint distinct (seen values : list (option JsVal)) : list (option JsVal) :=
  match values with
  | [] => []
  | v :: values' =>
      if includes seen v then distinct seen values'
      else v :: distinct (v :: seen) values'
  end.

(** Line 69: the options of the category filter. *)
Definition categories (products : list Entity) : list (option JsVal) :=
  distinct [] (map (fun p => p !! "category") products).

End StockPage.

(** ** The search bar ([src/SearchBar.jsx]) *)

Module SearchBar.

(** The keys [handleKeyDown] distinguishes. *)
Inductive Key : Type := ArrowDown | ArrowUp | Enter | Escape | OtherKey.

(** The state of the component. *)
Record State : Type := mkState {
  query : string;
  suggestions : list Entity;
  showSuggestions : bool;
  selectedIndex : Z
}.

(** Lines 62-68: the state after a suggestion was chosen; the second
    component is the suggestion handed to [navigateToSuggestion]. *)
Definition handleSuggestionClick (suggestion : Entity) (st : State)
    : State * option Entity :=
  (mkState "" [] false (-1), Some suggestion).

(** [suggestions[i]] for a number [i]. *)
Definition at_ (l : list Entity) (i : Z) : option Entity :=
  if i <? 0 then None else l !! Z.to_nat i.

(** Lines 113-142. *)
Definition handleKeyDown (key : Key) (st : State) : State * option Entity :=
  let len := Z.of_nat (length (suggestions st)) in
  if negb (showSuggestions st) || (len =? 0) then (st, None)
  else
    match key with
    | ArrowDown =>
        (mkState (query st) (suggestions st) (showSuggestions st)
                 (if selectedIndex st <? len - 1 then selectedIndex st + 1
                  else selectedIndex st), None)
    | ArrowUp =>
        (mkState (query st) (suggestions st) (showSuggestions st)
                 (if 0 <? selectedIndex st then selectedIndex st - 1 else -1), None)
    | Enter =>
        if (0 <=? selectedIndex st) && (selectedIndex st <? len) then
          match at_ (suggestions st) (selectedIndex st) with
          | Some suggestion => handleSuggestionClick suggestion st
          | None => (st, None)
          end
        else if 0 <? len then
          match at_ (suggestions st) 0 with
          | Some suggestion => handleSuggestionClick suggestion st
          | None => (st, None)
          end
        else (st, None)
    | Escape => (mkState (query st) (suggestions st) false (-1), None)
    | OtherKey => (st, None)
    end.

(** The members of the [api] object (the [api] module, lines 119-468), in
    the order of the source. *)
Definition apiMembers : list string :=
  ["login"; "signup"; "getMe";
   "getWarehouses"; "createWarehouse"; "updateWarehouse"; "deleteWarehouse";
   "getLocations"; "createLocation"; "updateLocation";
   "getProducts"; "getProduct"; "createProduct"; "updateProduct"; "deleteProduct";
   "getDocuments"; "getDocument"; "createDocument"; "updateDocument";
   "confirmDocument";
   "getStock"; "getMovements"; "getLowStock"; "getLedger";
   "getDashboardSummary"; "getRiskAlerts"; "searchSuggestions";
   "getUsers"; "createUser"; "updateUser"; "deleteUser";
   "approveUser"; "disapproveUser"].

(** [await api[name](...)] inside a [try]: calling a member the object does
    not have throws a [TypeError] on the spot; otherwise the call settles
    with [response]. *)
Definition awaitApi {A : Type} (name : string) (response : Err + A) : Err + A :=
  if bool_decide (name ∈ apiMembers) then response else inl TypeError.

(** Line 191: whether the dropdown is rendered. *)
Definition dropdownShown (st : State) : bool :=
  showSuggestions st && (0 <? length (suggestions st))%nat.

(** What happens to the component. *)
Inductive Event : Type :=
| Change (value : string)
| TimerFires (response : Err + list Entity)
| Focus
| MouseDownOutside
| KeyDown (key : Key)
| Click (index : nat).

Section Component.
(** [q => q.trim().length].  JavaScript's [trim] and the length in UTF-16
    code units are not modelled: the component is followed for whatever
    this function is. *)
Variable trimmedLength : string -> nat.

(** Lines 41-56, run by the timer of line 58 with the [query] of the last
    render.  [response] is what the backend call settles with when it is
    made; the two setters of lines 50-51 write their state whole. *)
Definition fetchSuggestions (response : Err + list Entity) (st : State) : State :=
  if (trimmedLength (query st) <? 2)%nat then
    mkState (query st) [] false (selectedIndex st)
  else
    match awaitApi "smartSearch" response with
    | inr results =>
        mkState (query st) results (0 <? length results)%nat (selectedIndex st)
    | inl _ => mkState (query st) [] (showSuggestions st) (selectedIndex st)
    end.

(** One event: line 181 ([onChange]), the timer, line 183 ([onFocus]),
    lines 29-33 (a mouse press outside the component), line 182
    ([onKeyDown]) and line 196 (the button of a row, which exists only while
    the dropdown is rendered).  The second component is the suggestion
    navigated to, if any. *)
Definition step (e : Event) (st : State) : State * option Entity :=
  match e with
  | Change value =>
      (mkState value (suggestions st) (showSuggestions st) (selectedIndex st), None)
  | TimerFires response => (fetchSuggestions response st, None)
  | Focus =>
      (if (2 <=? trimmedLength (query st))%nat && (0 <? length (suggestions st))%nat
       then mkState (query st) (suggestions st) true (selectedIndex st)
       else st, None)
  | MouseDownOutside =>
      (mkState (query st) (suggestions st) false (selectedIndex st), None)
  | KeyDown key => handleKeyDown key st
  | Click index =>
      if dropdownShown st then
        match suggestions st !! index with
        | Some suggestion => handleSuggestionClick suggestion st
        | None => (st, None)
        end
      else (st, None)
  end.

(** A run of events; the suggestions navigated to on the way are
    collected. *)
Fixpoint run (events : list Event) (st : State) : State * list Entity :=
  match events with
  | [] => (st, [])
  | e :: events' =>
      let '(st1, chosen) := step e st in
      let '(st2, rest) := run events' st1 in
      (st2, match chosen with Some s => s :: rest | None => rest end)
  end.
End Component.

(** Lines 19-22: the state the component mounts in. *)
Definition initialState : State := mkState "" [] false (-1).

End SearchBar.

(** ** The master-data pages ([src/pages/Warehouses.jsx],
    [src/pages/Products.jsx]) *)

(** The members of the cache context value (lines 237-277 of
    [CacheContext.jsx]), by the shape of their arguments. *)
Inductive ContextMember : Type :=
| EntityHelper (f : Entity -> Helper)
| IdHelper (f : option JsVal -> Helper)
| OtherMember.

(** The context value, property by property. *)
Definition cacheContextValue : gmap string ContextMember :=
  list_to_map
    [("getWarehouses", OtherMember); ("getLocations", OtherMember);
     ("getProducts", OtherMember); ("getUsers", OtherMember);
     ("getDocuments", OtherMember);
     ("invalidateCache", OtherMember); ("clearAllCache", OtherMember);
     ("isCacheValid", OtherMember);
     ("addWarehouse", EntityHelper HAddWarehouse);
     ("updateWarehouse", OtherMember);
     ("removeWarehouse", IdHelper HRemoveWarehouse);
     ("addLocation", EntityHelper HAddLocation);
     ("updateLocationCache", EntityHelper HUpdateLocationCache);
     ("updateProductCache", EntityHelper HUpdateProductCache);
     ("addProduct", EntityHelper HAddProduct);
     ("removeProduct", IdHelper HRemoveProduct);
     ("addUser", EntityHelper HAddUser);
     ("updateUser", OtherMember);
     ("updateUserCache", EntityHelper HUpdateUserCache);
     ("removeUser", IdHelper HRemoveUser);
     ("addDocument", OtherMember); ("updateDocument", OtherMember);
     ("removeDocument", OtherMember);
     ("cache", OtherMember)].

(** The backend calls of the two pages. *)
Inductive MasterCall : Type :=
| ApiCreateWarehouse (formData : Entity)
| ApiUpdateWarehouse (id : option JsVal) (formData : Entity)
| ApiDeleteWarehouse (id : option JsVal)
| ApiDeleteProduct (id : option JsVal).

(** What a handler of these pages does, in order.  [MOutside] stands for a
    call this model does not follow (a context member called with arguments
    of another shape); no handler below reaches it. *)
Inductive MasterEffect : Type :=
| MConfirmDialog
| MCallApi (c : MasterCall)
| MCacheHelper (h : Helper)
| MSetRows (f : list Entity -> list Entity)
| MSetShowModal (b : bool)
| MAlert (text : string) (error : option Err)
| MConsoleError (error : Err)
| MLoadData
| MOutside.

(** [name(arg)] for a name destructured from [useCache()], inside a [try]
    block: calling [undefined] throws a [TypeError], which the [catch]
    block [onThrow] receives. *)
Definition callEntityMember (name : string) (arg : Entity)
    (rest : list MasterEffect) (onThrow : Err -> list MasterEffect)
    : list MasterEffect :=
  match cacheContextValue !! name with
  | Some (EntityHelper f) => MCacheHelper (f arg) :: rest
  | Some _ => [MOutside]
  | None => onThrow TypeError
  end.

Definition callIdMember (name : string) (id : option JsVal)
    (rest : list MasterEffect) (onThrow : Err -> list MasterEffect)
    : list MasterEffect :=
  match cacheContextValue !! name with
  | Some (IdHelper f) => MCacheHelper (f id) :: rest
  | Some _ => [MOutside]
  | None => onThrow TypeError
  end.

(** [Warehouses.jsx], lines 47-72.  [response] is what the awaited backend
    call settles with. *)
Definition Warehouses_handleSubmit (editingWarehouse : option Entity)
    (formData : Entity) (response : Err + Entity) : list MasterEffect :=
  let onCatch := fun error =>
    [MAlert "Failed to save warehouse: " (Some error); MLoadData] in
  match editingWarehouse with
  | Some ew =>
      let updatedWarehouse := spread ew formData in
      callEntityMember "updateWarehouseCache" updatedWarehouse
        (MSetRows (map (fun w => if strictEq (w !! "id") (ew !! "id")
                                 then updatedWarehouse else w)) ::
         MCallApi (ApiUpdateWarehouse (ew !! "id") formData) ::
         match response with
         | inr _ => [MSetShowModal false]
         | inl error => onCatch error
         end)
        onCatch
  | None =>
      MCallApi (ApiCreateWarehouse formData) ::
      match response with
      | inr newWarehouse =>
          callEntityMember "addWarehouse" newWarehouse
            [MSetRows (fun prev => prev ++ [newWarehouse]); MSetShowModal false]
            onCatch
      | inl error => onCatch error
      end
  end.

(** [Products.jsx], lines 81-99.  [accepted] is the answer to the
    confirmation dialog. *)
Definition Products_handleDelete (product : Entity) (accepted : bool)
    (response : Err + Entity) : list MasterEffect :=
  let onCatch := fun error =>
    [MConsoleError error; MAlert "" (Some error); MLoadData] in
  MConfirmDialog ::
  (if negb accepted then []
   else
     callIdMember "removeProduct" (product !! "id")
       (MSetRows (List.filter (fun p => negb (strictEq (p !! "id") (product !! "id")))) ::
        MCallApi (ApiDeleteProduct (product !! "id")) ::
        match response with
        | inr _ => [MAlert "Product deleted successfully" None]
        | inl error => onCatch error
        end)
       onCatch).

(** The cache helpers a handler runs, in order. *)
Definition cacheHelpersOf (trace : list MasterEffect) : list Helper :=
  omap (fun e => match e with MCacheHelper h => Some h | _ => None end) trace.

(** The backend calls a handler makes, in order. *)
Definition backendCallsOf (trace : list MasterEffect) : list MasterCall :=
  omap (fun e => match e with MCallApi c => Some c | _ => None end) trace.

(** ** More about the receipts page *)

(** The cache operations among the effects of a receipts handler. *)
Definition opsOf (trace : list PageEffect) : list CacheOp :=
  omap (fun e => match e with
                 | ECacheHelper h => Some (OpHelper h)
                 | EInvalidateCache key => Some (OpInvalidateCache key)
                 | _ => None
                 end) trace.

(** The backend calls among the effects of a receipts handler. *)
Definition apiCallsOf (trace : list PageEffect) : list ApiCall :=
  omap (fun e => match e with ECallApi c => Some c | _ => None end) trace.

(** [Warehouses.jsx], lines 74-92. *)
Definition Warehouses_handleDelete (warehouse : Entity) (accepted : bool)
    (response : Err + Entity) : list MasterEffect :=
  let onCatch := fun error => [MAlert "" (Some error); MLoadData] in
  MConfirmDialog ::
  (if negb accepted then []
   else
     callIdMember "removeWarehouse" (warehouse !! "id")
       (MSetRows (List.filter (fun w => negb (strictEq (w !! "id") (warehouse !! "id")))) ::
        MCallApi (ApiDeleteWarehouse (warehouse !! "id")) ::
        match response with
        | inr _ => []
        | inl error => onCatch error
        end)
       onCatch).

(** A store whose [products] slot was fetched at time 5. *)
Definition twoProducts : Cache :=
  <["products" := mkSlot (Some [mainWarehouse; annexWarehouse]) (Some 5) false]>
    initialCache.

(** The interval fires once in each of the given worlds, in turn: between
    two ticks anything may have happened to the store and the clock.  The
    worlds after each tick are returned. *)
Fixpoint ticksIn {F A : Type} (ws : list (World F)) (t : Task F A)
    : Task F A * list (World F) :=
  match ws with
  | [] => (t, [])
  | w :: ws' =>
      let '(t1, w1) := tick t w in
      let '(t2, out) := ticksIn ws' t1 in
      (t2, w1 :: out)
  end.

(** ** Basic facts *)

Lemma strictEq_true (a b : option JsVal) : strictEq a b = true ↔ a = b.
Proof. unfold strictEq. apply bool_decide_eq_true. Qed.

Lemma strictEq_false (a b : option JsVal) : strictEq a b = false ↔ a ≠ b.
Proof. unfold strictEq. apply bool_decide_eq_false. Qed.

(** A property of [{ ...w, ...updates }] comes from [updates] when it has
    it and from [w] otherwise. *)
Lemma spread_lookup (w updates : Entity) (p : string) :
  spread w updates !! p =
  match updates !! p with Some v => Some v | None => w !! p end.
Proof.
  unfold spread. destruct (updates !! p) as [v|] eqn:E.
  - by apply lookup_union_Some_l.
  - by apply lookup_union_r.
Qed.

(** Spreading a complete row over a row with the same properties yields the
    new row. *)
Lemma spread_full (w updates : Entity) :
  dom w ⊆ dom updates → spread w updates = updates.
Proof.
  intros Hsub. apply map_eq. intros p. rewrite spread_lookup.
  destruct (updates !! p) as [v|] eqn:E; [done|].
  apply not_elem_of_dom in E. apply not_elem_of_dom. set_solver.
Qed.

Lemma initialCache_lookup (k : string) :
  k ∈ cacheKeys → initialCache !! k = Some emptySlot.
Proof.
  unfold cacheKeys, masterKeys, documentKeys. simpl. intros Hk.
  repeat (apply elem_of_cons in Hk as [-> | Hk]; [reflexivity|]).
  by apply elem_of_nil in Hk.
Qed.

Lemma clearAllCache_initial (prev : Cache) : clearAllCache prev = initialCache.
Proof. reflexivity. Qed.

(** *** The three list transformations *)

Lemma map_if_lookup (c : Entity -> bool) (g : Entity -> Entity)
    (l : list Entity) (n : nat) (w : Entity) :
  l !! n = Some w →
  map (fun x => if c x then g x else x) l !! n = Some (if c w then g w else w).
Proof.
  intros H. change (map ?f l) with (f <$> l).
  by rewrite list_lookup_fmap, H.
Qed.

Lemma filter_sublist (c : Entity -> bool) (l : list Entity) :
  sublist (List.filter c l) l.
Proof.
  induction l as [|x l IH]; simpl.
  - constructor.
  - destruct (c x); by constructor.
Qed.

Lemma filter_elem_of (c : Entity -> bool) (l : list Entity) (w : Entity) :
  w ∈ List.filter c l ↔ w ∈ l ∧ c w = true.
Proof.
  rewrite !list_elem_of_In. apply filter_In.
Qed.

Lemma appendEntry_carriedOut (x : Entity) (l : list Entity) :
  ∃ l', appendEntry x (Some l) = Some l' ∧ carriedOut (Add x) l l'.
Proof. exists (l ++ [x]). split; reflexivity. Qed.

Lemma mergeById_carriedOut (id : option JsVal) (u : Entity) (l : list Entity) :
  ∃ l', mergeById id u (Some l) = Some l' ∧ carriedOut (Merge id u) l l'.
Proof.
  eexists. split; [reflexivity|]. split.
  - apply length_map.
  - intros n w H. eexists. split.
    + exact (map_if_lookup (fun x => strictEq (x !! "id") id)
               (fun x => spread x u) l n w H).
    + split.
      * intros Hne. apply strictEq_false in Hne. by rewrite Hne.
      * intros Heq p. apply strictEq_true in Heq. rewrite Heq.
        apply spread_lookup.
Qed.

Lemma replaceById_carriedOut (e : Entity) (l : list Entity) :
  ∃ l', replaceById e (Some l) = Some l' ∧ carriedOut (Replace e) l l'.
Proof.
  eexists. split; [reflexivity|]. split.
  - apply length_map.
  - intros n w H. eexists. split.
    + exact (map_if_lookup (fun x => strictEq (x !! "id") (e !! "id"))
               (fun _ => e) l n w H).
    + split.
      * intros Hne. apply strictEq_false in Hne. by rewrite Hne.
      * intros Heq. apply strictEq_true in Heq. by rewrite Heq.
Qed.

(** The code's filter, on the Boolean [w.id !== id], keeps the entries whose
    id differs. *)
Lemma filter_differs (id : option JsVal) (l : list Entity) :
  List.filter (fun w => negb (strictEq (w !! "id") id)) l
  = filter (fun w : Entity => w !! "id" ≠ id) l.
Proof.
  induction l as [|x l IH]; [reflexivity|].
  simpl. rewrite filter_cons, IH.
  destruct (decide (x !! "id" ≠ id)) as [Hne|Heq].
  - apply strictEq_false in Hne. by rewrite Hne.
  - apply dec_stable in Heq. apply strictEq_true in Heq. by rewrite Heq.
Qed.

Lemma removeById_carriedOut (id : option JsVal) (l : list Entity) :
  ∃ l', removeById id (Some l) = Some l' ∧ carriedOut (Remove id) l l'.
Proof.
  eexists. split; [reflexivity|]. apply filter_differs.
Qed.

(** [updateCache] with a function, on a slot that is in the store. *)
Lemma updateCache_fun (key : string) (f : Data -> Data) (now : Z)
    (prev : Cache) (s : Slot) :
  prev !! key = Some s →
  updateCache key (UFun f) now prev
  = Some (<[key := mkSlot (f (data s)) (Some now) false]> prev).
Proof. intros H. simpl. by rewrite H. Qed.

Lemma runHelper_updateCache (h : Helper) :
  runHelper h = updateCache (helperKey h) (UFun (helperFunction h)).
Proof. destruct h; reflexivity. Qed.

Lemma helperFunction_carriedOut (h : Helper) (l : list Entity) :
  ∃ l', helperFunction h (Some l) = Some l' ∧ carriedOut (helperIntent h) l l'.
Proof.
  unfold helperFunction. destruct (helperIntent h).
  - apply appendEntry_carriedOut.
  - apply mergeById_carriedOut.
  - apply replaceById_carriedOut.
  - apply removeById_carriedOut.
Qed.

Lemma helperFunction_null (h : Helper) :
  helperFunction h None = onNull (helperIntent h).
Proof. unfold helperFunction. by destruct (helperIntent h). Qed.

(** *** Updaters write one key *)

Lemma updateCache_frame (key : string) (updater : Updater) (now : Z)
    (prev next : Cache) (k' : string) :
  updateCache key updater now prev = Some next → k' ≠ key →
  next !! k' = prev !! k'.
Proof.
  intros H Hne. destruct updater as [f|v]; simpl in H.
  - destruct (prev !! key); [|discriminate].
    injection H as <-. by rewrite lookup_insert_ne.
  - injection H as <-. by rewrite lookup_insert_ne.
Qed.

Lemma setLoading_frame (key : string) (b : bool) (prev : Cache) (k' : string) :
  k' ≠ key → setLoading key b prev !! k' = prev !! k'.
Proof. intros Hne. unfold setLoading. by rewrite lookup_insert_ne. Qed.

Lemma commitFetched_frame (key : string) (d : list Entity) (now : Z)
    (prev : Cache) (k' : string) :
  k' ≠ key → commitFetched key d now prev !! k' = prev !! k'.
Proof. intros Hne. unfold commitFetched. by rewrite lookup_insert_ne. Qed.

Lemma invalidateCache_frame (key : string) (prev : Cache) (k' : string) :
  k' ≠ key → invalidateCache key prev !! k' = prev !! k'.
Proof. intros Hne. unfold invalidateCache. by rewrite lookup_insert_ne. Qed.

Lemma runOp_frame (op : CacheOp) (now : Z) (prev next : Cache) (k' : string) :
  runOp op now prev = Some next → k' ≠ opKey op → next !! k' = prev !! k'.
Proof.
  destruct op as [key updater|key|h]; simpl; intros H Hne.
  - eapply updateCache_frame; eauto.
  - injection H as <-. by apply invalidateCache_frame.
  - rewrite runHelper_updateCache in H. eapply updateCache_frame; eauto.
Qed.

(** ** The optimistic update helpers *)

(** C4.  On a slot whose cached sequence is not null, every helper rewrites
    exactly its own slot, and the new sequence is: for the add helpers, the
    old one with the new entry appended at the end; for the update helpers,
    the old one, position by position, where an entry whose id differs is
    unchanged and an entry whose id matches is replaced (for
    [updateWarehouse], [updateUser] and [updateDocument] by the entry that
    has, property by property, the value of the updates where they have one
    and the entry's own value otherwise; for the three [update...Cache]
    helpers by the given entry); for the remove helpers, exactly the entries
    whose id differs, each as often as before and in the same order. *)
Theorem helper_on_cached_sequence (h : Helper) (now : Z) (prev : Cache)
    (s : Slot) (l : list Entity) :
  prev !! helperKey h = Some s → data s = Some l →
  ∃ l', runHelper h now prev
        = Some (<[helperKey h := mkSlot (Some l') (Some now) false]> prev)
        ∧ carriedOut (helperIntent h) l l'.
Proof.
  intros Hs Hl.
  destruct (helperFunction_carriedOut h l) as (l' & Hf & Hc).
  exists l'. split; [|exact Hc].
  rewrite runHelper_updateCache, (updateCache_fun _ _ _ _ _ Hs), Hl, Hf.
  reflexivity.
Qed.

(** C4, on a concrete store: renaming the warehouse with id 1 among two. *)
Lemma helper_on_cached_sequence_witness :
  ∃ l', runHelper renameMain 9 twoWarehouses
        = Some (<[helperKey renameMain := mkSlot (Some l') (Some 9) false]> twoWarehouses)
        ∧ carriedOut (helperIntent renameMain) [mainWarehouse; annexWarehouse] l'.
Proof.
  apply (helper_on_cached_sequence renameMain 9 twoWarehouses
           (mkSlot (Some [mainWarehouse; annexWarehouse]) (Some 5) false)).
  - reflexivity.
  - reflexivity.
Defined.

(** C5, as stated, fails: [addWarehouse] on the initial store, whose
    [warehouses] slot has data [null], leaves a one-element sequence. *)
Lemma helpersKeepNull_counterexample : ¬ helpersKeepNull.
Proof.
  intros Hclaim.
  destruct (Hclaim (HAddWarehouse ∅) 0 initialCache
              (<["warehouses" := mkSlot (Some [∅]) (Some 0) false]> initialCache)
              emptySlot) as (s' & Hs' & Hd); try reflexivity.
  simpl in Hs'. rewrite lookup_insert_eq in Hs'. injection Hs' as <-.
  discriminate Hd.
Qed.

(** C5, amended.  On a slot whose data is null, the update and remove
    helpers leave the data null, and the add helpers set it to the
    one-element sequence holding the new entry; in both cases the slot is
    stamped with the current time and marked not loading, and no other slot
    is written. *)
Theorem helper_on_null_data (h : Helper) (now : Z) (prev : Cache) (s : Slot) :
  prev !! helperKey h = Some s → data s = None →
  runHelper h now prev
  = Some (<[helperKey h := mkSlot (onNull (helperIntent h)) (Some now) false]> prev).
Proof.
  intros Hs Hd.
  rewrite runHelper_updateCache, (updateCache_fun _ _ _ _ _ Hs), Hd.
  by rewrite helperFunction_null.
Qed.

(** C5 amended, on the initial store: removing a product that was never
    fetched leaves the data null. *)
Lemma helper_on_null_data_witness :
  runHelper (HRemoveProduct (Some (JNum 7))) 3 initialCache
  = Some (<["products" := mkSlot None (Some 3) false]> initialCache).
Proof.
  apply (helper_on_null_data (HRemoveProduct (Some (JNum 7))) 3 initialCache emptySlot).
  - reflexivity.
  - reflexivity.
Defined.

(** ** Clearing the cache *)

(** C9, as stated, fails: logging out of an application whose [products]
    slot is populated leaves that slot populated. *)
Lemma logoutClearsCache_counterexample : ¬ logoutClearsCache.
Proof.
  intros Hclaim.
  pose (a := mkApp {[ "token" := "t" ]} (Some ∅)
               (<["products" := mkSlot (Some [∅]) (Some 1) false]> initialCache)
               "/dashboard").
  specialize (Hclaim a). rewrite Forall_forall in Hclaim.
  assert (Hin : "products" ∈ cacheKeys).
  { unfold cacheKeys, masterKeys, documentKeys. simpl. set_solver. }
  specialize (Hclaim "products" Hin).
  simpl in Hclaim. rewrite lookup_insert_eq in Hclaim. discriminate Hclaim.
Qed.

(** C9, amended.  [clearAllCache] puts the store in the state in which each
    of the eight slots is [{data: null, timestamp: null, loading: false}],
    whatever it was before; [logout] and [handleLogout] remove the token and
    the user (and navigate) but leave the cache as it is. *)
Theorem clearAllCache_resets_logout_keeps :
  (∀ prev : Cache,
     Forall (fun k => clearAllCache prev !! k = Some emptySlot) cacheKeys
     ∧ dom (clearAllCache prev) = list_to_set cacheKeys)
  ∧ (∀ a : App,
       cacheState (logout a) = cacheState a
       ∧ cacheState (handleLogout a) = cacheState a
       ∧ user (handleLogout a) = None
       ∧ localStorage (handleLogout a) !! "token" = None
       ∧ route (handleLogout a) = "/login").
Proof.
  split.
  - intros prev. split.
    + rewrite Forall_forall. intros k Hk.
      rewrite clearAllCache_initial. by apply initialCache_lookup.
    + unfold clearAllCache, cacheKeys, masterKeys, documentKeys. simpl.
      rewrite !dom_insert_L, dom_empty_L. set_solver.
  - intros a. repeat split; simpl; try reflexivity.
    apply lookup_delete_eq.
Qed.

(** ** Running [fetchWithCache] *)

Section FetchWithCache.
Context {F : Type}.
Implicit Types (snap : Cache) (key : string) (fn : F) (w : World F).

(** The first synchronous stretch of a call, by cases on the snapshot. *)
Lemma fetchWithCache_run snap key fn (force : bool) w :
  runSync (fetchWithCache snap key fn force) w =
  match snap !! key with
  | None => (Settled (inl TypeError), w)
  | Some s =>
      if negb force && fresh s (clock w) then (Settled (inr (data s)), w)
      else if loading s then (Polling (checkInterval snap key) Resolve, w)
      else (Awaiting fn (afterFetch key),
            mkWorld (setLoading key true (store w)) (clock w) (calls w ++ [fn]))
  end.
Proof.
  unfold fetchWithCache, isCacheValid, fresh.
  destruct (snap !! key) as [s|] eqn:Hs.
  - destruct force; simpl; rewrite ?Hs.
    + destruct (loading s); reflexivity.
    + destruct (truthyData (data s)), (truthyTimestamp (timestamp s));
        simpl; rewrite ?Hs;
        try destruct (_ <? _); try destruct (loading s); reflexivity.
  - destruct force; simpl; rewrite ?Hs; reflexivity.
Qed.

(** A call that finds the slot neither fresh nor loading invokes the fetch
    function. *)
Lemma fetchWithCache_starts snap key fn (force : bool) w (s : Slot) :
  snap !! key = Some s → loading s = false →
  negb force && fresh s (clock w) = false →
  runSync (fetchWithCache snap key fn force) w
  = (Awaiting fn (afterFetch key),
     mkWorld (setLoading key true (store w)) (clock w) (calls w ++ [fn])).
Proof.
  intros Hs Hl Hf. by rewrite fetchWithCache_run, Hs, Hf, Hl.
Qed.

(** What the two ways of settling the awaited call do. *)
Lemma afterFetch_fulfilled key (d : list Entity) w :
  runSync (afterFetch (F := F) key (Fulfilled d)) w
  = (Settled (inr (Some d)),
     mkWorld (commitFetched key d (clock w) (store w)) (clock w) (calls w)).
Proof. reflexivity. Qed.

Lemma afterFetch_failed key (error : Err) w :
  runSync (afterFetch (F := F) key (Failed error)) w
  = (Settled (inl error),
     mkWorld (setLoading key false (store w)) (clock w) (calls w)).
Proof. reflexivity. Qed.

(** A call that finds the slot loading polls the snapshot it closed over,
    where the flag stays set: no number of interval ticks settles it. *)
Lemma joined_call_never_settles snap key fn (force : bool) w (s : Slot) :
  snap !! key = Some s → loading s = true →
  negb force && fresh s (clock w) = false →
  runSync (fetchWithCache snap key fn force) w
  = (Polling (checkInterval snap key) Resolve, w)
  ∧ ∀ (n : nat) (w1 : World F),
      ticks n (Polling (checkInterval snap key) Resolve) w1
      = (Polling (checkInterval snap key) Resolve, w1).
Proof.
  intros Hs Hl Hf. split.
  - by rewrite fetchWithCache_run, Hs, Hf, Hl.
  - intros n w1. induction n as [|n IH]; [reflexivity|].
    simpl. unfold checkInterval at 1. rewrite Hs, Hl. exact IH.
Qed.

(** Calls issued in the same turn from the same snapshot. *)
Lemma startAll_same_snapshot (n : nat) snap key fn (force : bool) (s : Slot) w :
  snap !! key = Some s → loading s = false →
  negb force && fresh s (clock w) = false →
  ∃ w', startAll (replicate n (fetchWithCache snap key fn force)) w
        = (replicate n (Awaiting fn (afterFetch key)), w')
        ∧ clock w' = clock w
        ∧ calls w' = calls w ++ replicate n fn.
Proof.
  intros Hs Hl. revert w. induction n as [|n IH]; intros w Hf.
  - exists w. simpl. by rewrite app_nil_r.
  - simpl. rewrite (fetchWithCache_starts _ _ _ _ _ _ Hs Hl Hf).
    destruct (IH (mkWorld (setLoading key true (store w)) (clock w) (calls w ++ [fn])))
      as (w' & Hrun & Hclock & Hcalls); [exact Hf|].
    exists w'. rewrite Hrun. simpl in *.
    split; [reflexivity|]. split; [exact Hclock|].
    rewrite Hcalls, <- app_assoc. reflexivity.
Qed.
End FetchWithCache.

(** C1 (the code departs from the claim).  Calls of [fetchWithCache] for one
    key that are issued in the same turn all read the [loading] flag of the
    render snapshot they closed over, which [setCache] does not change: when
    that slot is neither loading nor fresh, each of the [n] calls marks the
    slot loading and invokes the fetch function, so the function is invoked
    [n] times and [n] backend fetches are in flight together. *)
Theorem same_turn_calls_each_invoke {F : Type} (n : nat) (snap : Cache)
    (key : string) (fn : F) (force : bool) (s : Slot) (w : World F) :
  snap !! key = Some s → loading s = false →
  negb force && fresh s (clock w) = false →
  ∃ (ts : list (Task F Data)) (w' : World F),
    startAll (replicate n (fetchWithCache snap key fn force)) w = (ts, w')
    ∧ length ts = n
    ∧ forallb isAwaiting ts = true
    ∧ calls w' = calls w ++ replicate n fn.
Proof.
  intros Hs Hl Hf.
  destruct (startAll_same_snapshot n snap key fn force s w Hs Hl Hf)
    as (w' & Hrun & _ & Hcalls).
  exists (replicate n (Awaiting fn (afterFetch key))), w'.
  split; [exact Hrun|]. split; [apply length_replicate|]. split; [|exact Hcalls].
  clear. induction n as [|n IH]; [reflexivity|exact IH].
Qed.

(** C1, on the initial store: two calls for [products] in one turn invoke
    the fetch function twice. *)
Lemma same_turn_calls_each_invoke_witness :
  ∃ (ts : list (Task ApiCall Data)) (w' : World ApiCall),
    startAll (replicate 2 (fetchWithCache initialCache "products" ApiGetProducts false))
             (mkWorld initialCache 1000 [])
    = (ts, w')
    ∧ length ts = 2%nat
    ∧ forallb isAwaiting ts = true
    ∧ calls w' = [] ++ replicate 2 ApiGetProducts.
Proof.
  apply (same_turn_calls_each_invoke 2 initialCache "products" ApiGetProducts false
           emptySlot (mkWorld initialCache 1000 [])).
  - reflexivity.
  - reflexivity.
  - reflexivity.
Defined.

(** C3.  When a call of [fetchWithCache] has invoked the fetch function and
    that invocation fails, the call rejects with the same error, the slot's
    [loading] flag is reset to false while its data and timestamp stay what
    they were in the store just before, and the fetch function is not
    invoked again: the call invoked it exactly once. *)
Theorem fetchWithCache_failure {F : Type} (snap : Cache) (key : string) (fn : F)
    (force : bool) (w0 w1 : World F) (t : Task F Data) (error : Err)
    (w : World F) (s : Slot) :
  runSync (fetchWithCache snap key fn force) w0 = (t, w1) →
  isAwaiting t = true →
  store w !! key = Some s →
  calls w1 = calls w0 ++ [fn]
  ∧ ∃ w' : World F,
      deliver (Failed error) t w = (Settled (inl error), w')
      ∧ store w' !! key = Some (mkSlot (data s) (timestamp s) false)
      ∧ (∀ k' : string, k' ≠ key → store w' !! k' = store w !! k')
      ∧ calls w' = calls w.
Proof.
  intros Hrun Ht Hstore. rewrite fetchWithCache_run in Hrun.
  destruct (snap !! key) as [s0|]; [|injection Hrun as <- <-; discriminate Ht].
  destruct (negb force && fresh s0 (clock w0));
    [injection Hrun as <- <-; discriminate Ht|].
  destruct (loading s0); [injection Hrun as <- <-; discriminate Ht|].
  injection Hrun as <- <-. split; [reflexivity|].
  eexists. split; [apply afterFetch_failed|]. simpl.
  split; [|split; [|reflexivity]].
  - unfold setLoading, withLoading. by rewrite lookup_insert_eq, Hstore.
  - intros k' Hne. by apply setLoading_frame.
Qed.

(** C3, on a store whose [warehouses] slot is populated: a forced refresh
    fails and the populated slot keeps its data and timestamp. *)
Lemma fetchWithCache_failure_witness :
  calls (mkWorld (setLoading "warehouses" true twoWarehouses) 9 [ApiGetWarehouses])
  = [] ++ [ApiGetWarehouses]
  ∧ ∃ w' : World ApiCall,
      deliver (Failed (ApiError "Failed to fetch warehouses"))
              (Awaiting ApiGetWarehouses (afterFetch "warehouses"))
              (mkWorld (setLoading "warehouses" true twoWarehouses) 20 [ApiGetWarehouses])
      = (Settled (inl (ApiError "Failed to fetch warehouses")), w')
      ∧ store w' !! "warehouses"
        = Some (mkSlot (Some [mainWarehouse; annexWarehouse]) (Some 5) false)
      ∧ (∀ k' : string, k' ≠ "warehouses" →
           store w' !! k' = setLoading "warehouses" true twoWarehouses !! k')
      ∧ calls w' = [ApiGetWarehouses].
Proof.
  apply (fetchWithCache_failure twoWarehouses "warehouses" ApiGetWarehouses true
           (mkWorld twoWarehouses 9 [])
           (mkWorld (setLoading "warehouses" true twoWarehouses) 9 [ApiGetWarehouses])
           (Awaiting ApiGetWarehouses (afterFetch "warehouses"))
           (ApiError "Failed to fetch warehouses")
           (mkWorld (setLoading "warehouses" true twoWarehouses) 20 [ApiGetWarehouses])
           (mkSlot (Some [mainWarehouse; annexWarehouse]) (Some 5) true)).
  - reflexivity.
  - reflexivity.
  - reflexivity.
Defined.

(** C10.  Every cache operation scoped to a key leaves the slots of all
    other keys as they were: [updateCache], [invalidateCache] and each of
    the add, update and remove helpers (first part); and the store updates
    of a [fetchWithCache] call, both the one it makes when it starts and the
    one it makes when the awaited fetch fulfils or fails, whatever happened
    to the store in between (second part). *)
Theorem operations_write_one_key :
  (∀ (op : CacheOp) (now : Z) (prev next : Cache) (k' : string),
     runOp op now prev = Some next → k' ≠ opKey op → next !! k' = prev !! k')
  ∧ (∀ (F : Type) (snap : Cache) (key : string) (fn : F) (force : bool)
       (w : World F) (k' : string),
       k' ≠ key →
       store (runSync (fetchWithCache snap key fn force) w).2 !! k' = store w !! k'
       ∧ ∀ (o : Outcome) (w1 : World F),
           store (deliver o (runSync (fetchWithCache snap key fn force) w).1 w1).2 !! k'
           = store w1 !! k').
Proof.
  split.
  - apply runOp_frame.
  - intros F snap key fn force w k' Hne. rewrite fetchWithCache_run.
    destruct (snap !! key) as [s|]; [|split; reflexivity].
    destruct (negb force && fresh s (clock w)); [split; reflexivity|].
    destruct (loading s); [split; reflexivity|].
    simpl. split.
    + by apply setLoading_frame.
    + intros [d|e] w1; simpl.
      * by apply commitFetched_frame.
      * by apply setLoading_frame.
Qed.

(** ** Running [getDocuments] *)

(** Running [p.then(f)]: run [p]; continue with [f] when it has settled
    fulfilled, and keep [f] for later when it is suspended. *)
Lemma runSync_bind {F A B : Type} (p : Async F A) (f : A -> Async F B) (w : World F) :
  runSync (bind p f) w =
  match runSync p w with
  | (Settled (inr a), w') => runSync (f a) w'
  | (Settled (inl e), w') => (Settled (inl e), w')
  | (Awaiting fn k, w') => (Awaiting fn (fun o => bind (k o) f), w')
  | (Polling cb k, w') => (Polling cb (fun d => bind (k d) f), w')
  end.
Proof.
  revert w. induction p as [a|e|k IH|u k IH|fn k IH|cb k IH]; intros w; simpl.
  - reflexivity.
  - reflexivity.
  - apply IH.
  - apply IH.
  - reflexivity.
  - reflexivity.
Qed.

(** In-memory filtering settles at once and touches nothing. *)
Lemma filterByStatus_some (sf : string) (l : list Entity) (w : World ApiCall) :
  runSync (filterByStatus sf (Some l)) w
  = (Settled (inr (Some (visibleDocuments sf l))), w).
Proof.
  unfold filterByStatus, visibleDocuments. by destruct (truthyString sf).
Qed.

Lemma fresh_has_data (s : Slot) (now : Z) :
  fresh s now = true → ∃ l, data s = Some l.
Proof.
  unfold fresh. destruct (data s) as [l|]; [eauto|discriminate].
Qed.

(** The first synchronous stretch of [getDocuments], by cases on the
    snapshot.  Its own one-minute test and the five-minute test of
    [fetchWithCache] behind it amount to the five-minute test. *)
Lemma getDocuments_run (snap : Cache) (type sf : string) (force : bool)
    (w : World ApiCall) :
  runSync (getDocuments snap type sf force) w =
  match snap !! type with
  | None => (Settled (inl TypeError), w)
  | Some s =>
      if negb force && fresh s (clock w) then
        (Settled (inr (Some (visibleDocuments sf (default [] (data s))))), w)
      else if loading s then
        (Polling (checkInterval snap type)
                 (fun d => bind (Resolve d) (filterByStatus sf)), w)
      else
        (Awaiting (ApiGetDocuments type "" "")
                  (fun o => bind (afterFetch type o) (filterByStatus sf)),
         mkWorld (setLoading type true (store w)) (clock w)
                 (calls w ++ [ApiGetDocuments type "" ""]))
  end.
Proof.
  assert (Hrefetch :
    runSync (bind (fetchWithCache snap type (ApiGetDocuments type "" "") force)
                  (filterByStatus sf)) w =
    match snap !! type with
    | None => (Settled (inl TypeError), w)
    | Some s =>
        if negb force && fresh s (clock w) then
          (Settled (inr (Some (visibleDocuments sf (default [] (data s))))), w)
        else if loading s then
          (Polling (checkInterval snap type)
                   (fun d => bind (Resolve d) (filterByStatus sf)), w)
        else
          (Awaiting (ApiGetDocuments type "" "")
                    (fun o => bind (afterFetch type o) (filterByStatus sf)),
           mkWorld (setLoading type true (store w)) (clock w)
                   (calls w ++ [ApiGetDocuments type "" ""]))
    end).
  { rewrite runSync_bind, fetchWithCache_run.
    destruct (snap !! type) as [s|]; [|reflexivity].
    destruct (negb force && fresh s (clock w)) eqn:Hf.
    - apply andb_true_iff in Hf as [_ Hf].
      destruct (fresh_has_data _ _ Hf) as [l ->]. apply filterByStatus_some.
    - destruct (loading s); reflexivity. }
  unfold getDocuments. destruct force; [exact Hrefetch|].
  destruct (snap !! type) as [s|] eqn:Hs; [|reflexivity].
  destruct (truthyData (data s) && truthyTimestamp (timestamp s)) eqn:Htruthy;
    [|exact Hrefetch].
  simpl runSync.
  destruct (clock w - toNumber (timestamp s) <? DOCUMENT_CACHE_DURATION) eqn:Hdoc;
    [|exact Hrefetch].
  assert (Hfresh : fresh s (clock w) = true).
  { unfold fresh. rewrite Htruthy. simpl. apply Z.ltb_lt. apply Z.ltb_lt in Hdoc.
    unfold DOCUMENT_CACHE_DURATION in Hdoc. unfold CACHE_DURATION. lia. }
  simpl. rewrite Hfresh.
  destruct (fresh_has_data _ _ Hfresh) as [l ->]. apply filterByStatus_some.
Qed.

(** C2 (the code departs from the claim).  A [getDocuments] call without
    forced refresh on a document slot whose data is older than one minute
    but younger than five minutes performs no backend fetch: its own
    one-minute test fails (first part), but the [fetchWithCache] call it
    falls through to applies the five-minute window to the same slot and
    returns the cached list, leaving the store and the log of backend calls
    as they were (second part). *)
Theorem getDocuments_between_windows (snap : Cache) (type sf : string)
    (s : Slot) (l : list Entity) (t : Z) (w : World ApiCall) :
  snap !! type = Some s → data s = Some l → timestamp s = Some t → t ≠ 0 →
  DOCUMENT_CACHE_DURATION <= clock w - t → clock w - t < CACHE_DURATION →
  (clock w - toNumber (timestamp s) <? DOCUMENT_CACHE_DURATION) = false
  ∧ runSync (getDocuments snap type sf false) w
    = (Settled (inr (Some (visibleDocuments sf l))), w).
Proof.
  intros Hs Hd Ht Hnz Hge Hlt. split.
  - rewrite Ht. simpl. by apply Z.ltb_ge.
  - rewrite getDocuments_run, Hs.
    assert (Hfresh : fresh s (clock w) = true).
    { unfold fresh. rewrite Hd, Ht. simpl.
      apply andb_true_iff. split; [|by apply Z.ltb_lt].
      apply negb_true_iff. by apply Z.eqb_neq. }
    simpl. by rewrite Hfresh, Hd.
Qed.

(** C2, on receipts fetched at time 1000 and read two minutes later: the
    cached list is returned and the log of backend calls stays empty. *)
Lemma getDocuments_between_windows_witness :
  (121000 - 1000 <? DOCUMENT_CACHE_DURATION) = false
  ∧ runSync (getDocuments receiptsFetched "receipts" "" false)
            (mkWorld receiptsFetched 121000 [])
    = (Settled (inr (Some (visibleDocuments "" [draftReceipt; confirmedReceipt]))),
       mkWorld receiptsFetched 121000 []).
Proof.
  apply (getDocuments_between_windows receiptsFetched "receipts" ""
           (mkSlot (Some [draftReceipt; confirmedReceipt]) (Some 1000) false)
           [draftReceipt; confirmedReceipt] 1000
           (mkWorld receiptsFetched 121000 [])).
  - reflexivity.
  - reflexivity.
  - reflexivity.
  - discriminate.
  - vm_compute. discriminate.
  - reflexivity.
Defined.

(** The code's in-memory filter returns the documents with the status asked
    for. *)
Lemma visibleDocuments_documentsWithStatus (sf : string) (l : list Entity) :
  visibleDocuments sf l = documentsWithStatus sf l.
Proof.
  unfold visibleDocuments, documentsWithStatus.
  destruct sf as [|a sf']; [reflexivity|].
  simpl truthyString. cbv iota.
  destruct (decide (String a sf' = "")) as [Habs|_]; [discriminate|].
  induction l as [|doc l IH]; [reflexivity|].
  simpl. rewrite filter_cons, IH. unfold hasStatus.
  destruct (decide (doc !! "status" = Some (JStr (String a sf')))) as [Heq|Hne].
  - apply strictEq_true in Heq. by rewrite Heq.
  - apply strictEq_false in Hne. by rewrite Hne.
Qed.




(** C6 on the initial store: the first read of the receipts with the filter
    [CONFIRMED] issues the unfiltered backend call, and a list of a draft
    and a confirmed receipt that arrives at time 3000 is stored whole under
    [receipts] while the caller receives the confirmed receipt. *)
Example getDocuments_first_read :
  ∃ k, runSync (getDocuments initialCache "receipts" "CONFIRMED" false)
               (mkWorld initialCache 2000 [])
       = (Awaiting (ApiGetDocuments "receipts" "" "") k,
          mkWorld (<["receipts" := mkSlot None None true]> initialCache) 2000
                  [ApiGetDocuments "receipts" "" ""])
       ∧ runSync (k (Fulfilled [draftReceipt; confirmedReceipt]))
                 (mkWorld (<["receipts" := mkSlot None None true]> initialCache) 3000
                          [ApiGetDocuments "receipts" "" ""])
         = (Settled (inr (Some [confirmedReceipt])),
            mkWorld (<["receipts" := mkSlot (Some [draftReceipt; confirmedReceipt])
                                            (Some 3000) false]>
                       (<["receipts" := mkSlot None None true]> initialCache))
                    3000 [ApiGetDocuments "receipts" "" ""]).
Proof. eexists. split; reflexivity. Qed.

(** ** Document confirmation *)

(** Under the update policy the only change of status a row can undergo is
    from [DRAFT] to [CONFIRMED], written by an administrator. *)
Lemma documents_update_transition (adminUser : bool) (old new : DocStatus) :
  documents_update adminUser old new = old
  ∨ (old = DRAFT ∧ documents_update adminUser old new = CONFIRMED ∧ adminUser = true).
Proof.
  destruct adminUser, old, new; vm_compute; auto.
Qed.

(** A confirmed row is out of reach of every update. *)
Lemma documents_update_confirmed (adminUser : bool) (new : DocStatus) :
  documents_update adminUser CONFIRMED new = CONFIRMED.
Proof. reflexivity. Qed.

Lemma confirmOffered_iff (doc : Entity) (admin : bool) :
  confirmOffered doc admin = true
  ↔ doc !! "status" = Some (JStr "DRAFT") ∧ admin = true.
Proof.
  unfold confirmOffered. by rewrite andb_true_iff, strictEq_true.
Qed.

Lemma isAdmin_iff (user : option Entity) :
  isAdmin user = true
  ↔ ∃ u : Entity, user = Some u ∧ u !! "role" = Some (JStr "ADMIN").
Proof.
  unfold isAdmin. rewrite strictEq_true. destruct user as [u|].
  - split; [eauto|]. by intros (u' & [= <-] & H).
  - split; [discriminate|]. by intros (u' & H & _).
Qed.

(** Every document of a list is among the documents shown for the empty
    filter and for the filter of its own status. *)
Lemma documentsWithStatus_keeps (sf status : string) (doc : Entity)
    (l : list Entity) :
  doc ∈ l → doc !! "status" = Some (JStr status) → sf = "" ∨ sf = status →
  doc ∈ documentsWithStatus sf l.
Proof.
  intros Hin Hst Hsf. unfold documentsWithStatus.
  destruct (decide (sf = "")) as [_|Hne]; [exact Hin|].
  destruct Hsf as [->| ->]; [done|].
  apply list_elem_of_filter. by split.
Qed.

(** C7 (the code departs from the claim).  After a successful confirmation
    the handler of the receipts page does call [invalidateCache('receipts')]
    and [loadData()], and patches nothing; the store's [receipts] slot is
    emptied and no other slot changes.  But the [getDocuments] that this
    [loadData] calls is the closure of the render that drew the row, whose
    snapshot still holds the list read before the confirmation.  When that
    list was fetched less than [CACHE_DURATION] ago, the reload
    - makes no backend read (the log of calls holds the confirm request
      only) and leaves the store as the invalidation left it, and
    - hands the page the snapshot's documents, among them the confirmed
      document with its old status [DRAFT],
    so the row keeps showing [DRAFT] and keeps offering the edit and, to an
    administrator, the confirm action for a document that has been
    confirmed.  ([loadData] awaits three more reads before it calls
    [setDocuments]; whether or not they settle, the rows are those of the
    snapshot.) *)
Theorem confirm_reload_keeps_draft_row (snap : Cache) (sf : string) (s : Slot)
    (l : list Entity) (t : Z) (doc response : Entity) (user : option Entity)
    (w : World ApiCall) :
  snap !! "receipts" = Some s → data s = Some l → timestamp s = Some t →
  t ≠ 0 → clock w - t < CACHE_DURATION →
  doc ∈ l → doc !! "status" = Some (JStr "DRAFT") → sf = "" ∨ sf = "DRAFT" →
  isAdmin user = true →
  handleConfirm (doc !! "id") true (inr response)
  = [EConfirmDialog "Confirm this receipt? This will update stock levels.";
     ECallApi (ApiConfirmDocument "receipts" (doc !! "id"));
     EInvalidateCache "receipts";
     ELoadData]
  ∧ ∃ c : Cache,
      runOps (map (fun op => (op, clock w))
                  (opsOf (handleConfirm (doc !! "id") true (inr response))))
             (store w) = Some c
      ∧ c !! "receipts" = Some emptySlot
      ∧ (∀ k : string, k ≠ "receipts" → c !! k = store w !! k)
      ∧ runSync (getDocuments snap "receipts" sf false)
                (mkWorld c (clock w)
                   (calls w ++ apiCallsOf (handleConfirm (doc !! "id") true (inr response))))
        = (Settled (inr (Some (documentsWithStatus sf l))),
           mkWorld c (clock w)
                   (calls w ++ [ApiConfirmDocument "receipts" (doc !! "id")]))
      ∧ doc ∈ documentsWithStatus sf l
      ∧ confirmOffered doc (isAdmin user) = true
      ∧ editOffered doc = true.
Proof.
  intros Hs Hl Ht Hnz Hage Hin Hst Hsf Hadmin.
  split; [reflexivity|].
  exists (invalidateCache "receipts" (store w)).
  split; [reflexivity|].
  split; [apply lookup_insert_eq|].
  split; [intros k Hk; by apply invalidateCache_frame|].
  split.
  - rewrite getDocuments_run, Hs.
    assert (Hfresh : fresh s (clock w) = true).
    { unfold fresh. rewrite Hl, Ht. simpl.
      apply andb_true_iff. split; [|by apply Z.ltb_lt].
      apply negb_true_iff. by apply Z.eqb_neq. }
    cbn [clock negb andb]. rewrite Hfresh, Hl. simpl.
    by rewrite visibleDocuments_documentsWithStatus.
  - split; [by apply (documentsWithStatus_keeps sf "DRAFT")|].
    split.
    + apply confirmOffered_iff. by split.
    + unfold editOffered. by apply strictEq_true.
Qed.

(** C7, on the receipts page showing a draft and a confirmed receipt fetched
    at time 1000, where an administrator confirms the draft (id 1) at time
    30000: the reload reads nothing from the backend and the page is handed
    the draft as a draft again. *)
Lemma confirm_reload_keeps_draft_row_witness :
  handleConfirm (draftReceipt !! "id") true (inr confirmedReceipt)
  = [EConfirmDialog "Confirm this receipt? This will update stock levels.";
     ECallApi (ApiConfirmDocument "receipts" (draftReceipt !! "id"));
     EInvalidateCache "receipts";
     ELoadData]
  ∧ ∃ c : Cache,
      runOps (map (fun op => (op, clock receiptsAt30000))
                  (opsOf (handleConfirm (draftReceipt !! "id") true (inr confirmedReceipt))))
             (store receiptsAt30000) = Some c
      ∧ c !! "receipts" = Some emptySlot
      ∧ (∀ k : string, k ≠ "receipts" →
           c !! k = store receiptsAt30000 !! k)
      ∧ runSync (getDocuments receiptsFetched "receipts" "" false)
                (mkWorld c (clock receiptsAt30000)
                   (calls receiptsAt30000
                    ++ apiCallsOf (handleConfirm (draftReceipt !! "id") true
                                     (inr confirmedReceipt))))
        = (Settled (inr (Some (documentsWithStatus "" [draftReceipt; confirmedReceipt]))),
           mkWorld c (clock receiptsAt30000)
                   (calls receiptsAt30000
                    ++ [ApiConfirmDocument "receipts" (draftReceipt !! "id")]))
      ∧ draftReceipt ∈ documentsWithStatus "" [draftReceipt; confirmedReceipt]
      ∧ confirmOffered draftReceipt (isAdmin administrator) = true
      ∧ editOffered draftReceipt = true.
Proof.
  refine (confirm_reload_keeps_draft_row receiptsFetched ""
            (mkSlot (Some [draftReceipt; confirmedReceipt]) (Some 1000) false)
            [draftReceipt; confirmedReceipt] 1000 draftReceipt confirmedReceipt
            administrator receiptsAt30000 _ _ _ _ _ _ _ _ _).
  - reflexivity.
  - reflexivity.
  - reflexivity.
  - discriminate.
  - reflexivity.
  - apply list_elem_of_here.
  - reflexivity.
  - by left.
  - reflexivity.
Defined.

(** ** The stock ledger *)





(** The relation holds for quantities with decimal places as well: the
    movements +2.50 and -0.40 from opening stock 1.25 give the balances 3.75
    and 3.35. *)
Example ledgerFrom_decimals :
  ledgerFrom (decimal 125 2) [decimal 250 2; decimal (-40) 2]
  = [mkEntry (decimal 250 2) (decimal 375 2);
     mkEntry (decimal (-40) 2) (decimal 335 2)].
Proof.
  cbn [ledgerFrom]. repeat f_equal; apply Qc_is_canon; reflexivity.
Qed.

(** ** The definitions at work on concrete inputs *)

(** A cold [getProducts]: the slot is marked loading and the backend is
    called; when the call fulfils the payload is committed with the time of
    arrival. *)
Example getProducts_cold_start :
  runSync (getProducts initialCache false) (mkWorld initialCache 1000 [])
  = (Awaiting ApiGetProducts (afterFetch "products"),
     mkWorld (<["products" := mkSlot None None true]> initialCache) 1000 [ApiGetProducts]).
Proof. reflexivity. Qed.

Example getProducts_fulfilled :
  deliver (Fulfilled [mainWarehouse])
          (Awaiting ApiGetProducts (afterFetch (F := ApiCall) "products"))
          (mkWorld (<["products" := mkSlot None None true]> initialCache) 1250 [ApiGetProducts])
  = (Settled (inr (Some [mainWarehouse])),
     mkWorld (<["products" := mkSlot (Some [mainWarehouse]) (Some 1250) false]> initialCache)
             1250 [ApiGetProducts]).
Proof. reflexivity. Qed.

(** Within the freshness window the snapshot answers and nothing is called. *)
Example getWarehouses_fresh :
  runSync (getWarehouses twoWarehouses false) (mkWorld twoWarehouses 200000 [])
  = (Settled (inr (Some [mainWarehouse; annexWarehouse])), mkWorld twoWarehouses 200000 []).
Proof. reflexivity. Qed.

(** After five minutes it does not. *)
Example getWarehouses_stale :
  isAwaiting (runSync (getWarehouses twoWarehouses false) (mkWorld twoWarehouses 300005 [])).1
  = true.
Proof. reflexivity. Qed.

(** A status filter is applied to the cached list. *)
Example getDocuments_draft_only :
  runSync (getDocuments receiptsFetched "receipts" "DRAFT" false)
          (mkWorld receiptsFetched 30000 [])
  = (Settled (inr (Some [draftReceipt])), mkWorld receiptsFetched 30000 []).
Proof. reflexivity. Qed.

(** A call that sees the flag set in its snapshot is still polling after
    fifty ticks, although the store has long been updated. *)
Example joined_call_still_polling :
  isPolling
    (ticks 50
       (runSync (getProducts (setLoading "products" true initialCache) false)
                (mkWorld (setLoading "products" true initialCache) 1000 [])).1
       (mkWorld (commitFetched "products" [mainWarehouse] 1100 initialCache) 6000 [])).1
  = true.
Proof. reflexivity. Qed.

(** Adding a product and removing it again. *)
Example addProduct_removeProduct :
  (addProduct mainWarehouse 7 twoWarehouses ≫= removeProduct (Some (JNum 1)) 8)
  = Some (<["products" := mkSlot (Some []) (Some 8) false]> twoWarehouses).
Proof. reflexivity. Qed.

(** Merging updates keeps the properties the updates do not mention. *)
Example updateWarehouse_merges :
  runHelper renameMain 9 twoWarehouses
  = Some (<["warehouses" :=
            mkSlot (Some [ {[ "id" := JNum 1; "name" := JStr "Central" ]};
                           annexWarehouse ])
                   (Some 9) false]> twoWarehouses).
Proof. reflexivity. Qed.

(** A staff user is offered the edit action on a draft, not the confirm
    action; nobody is offered either on a confirmed receipt. *)
Example receipts_row_actions :
  (editOffered draftReceipt, confirmOffered draftReceipt false,
   confirmOffered draftReceipt true,
   editOffered confirmedReceipt, confirmOffered confirmedReceipt true)
  = (true, false, true, false, false).
Proof. reflexivity. Qed.

(** ** Further properties of the cache *)

(** What delivering a payload to an awaiting call of [fetchWithCache] does. *)
Lemma awaiting_call_fulfilled {F : Type} (snap : Cache) (key : string) (fn : F)
    (force : bool) (w0 w1 : World F) (t : Task F Data) (d : list Entity)
    (w : World F) :
  runSync (fetchWithCache snap key fn force) w0 = (t, w1) →
  isAwaiting t = true →
  deliver (Fulfilled d) t w
  = (Settled (inr (Some d)),
     mkWorld (commitFetched key d (clock w) (store w)) (clock w) (calls w)).
Proof.
  intros Hrun Ht. rewrite fetchWithCache_run in Hrun.
  destruct (snap !! key) as [s0|]; [|injection Hrun as <- <-; discriminate Ht].
  destruct (negb force && fresh s0 (clock w0));
    [injection Hrun as <- <-; discriminate Ht|].
  destruct (loading s0); [injection Hrun as <- <-; discriminate Ht|].
  injection Hrun as <- <-. apply afterFetch_fulfilled.
Qed.

(** X1.  When a call of [fetchWithCache] has invoked the fetch function and
    that invocation fulfils with a payload, the call resolves with the
    payload, and the slot becomes the payload stamped with the time of
    arrival and not loading, whatever the slot held at that moment (an
    optimistic update made while the fetch was in flight is overwritten);
    no other slot changes and nothing more is fetched. *)
Theorem fetchWithCache_success {F : Type} (snap : Cache) (key : string) (fn : F)
    (force : bool) (w0 w1 : World F) (t : Task F Data) (d : list Entity)
    (w : World F) :
  runSync (fetchWithCache snap key fn force) w0 = (t, w1) →
  isAwaiting t = true →
  ∃ w' : World F,
    deliver (Fulfilled d) t w = (Settled (inr (Some d)), w')
    ∧ store w' !! key = Some (mkSlot (Some d) (Some (clock w)) false)
    ∧ (∀ k' : string, k' ≠ key → store w' !! k' = store w !! k')
    ∧ calls w' = calls w
    ∧ clock w' = clock w.
Proof.
  intros Hrun Ht.
  eexists. split; [by eapply awaiting_call_fulfilled|]. simpl.
  split; [apply lookup_insert_eq|].
  split; [|split; reflexivity].
  intros k' Hne. by apply commitFetched_frame.
Qed.

(** X1, on the initial store: the products arrive at time 1250 while the
    store already shows an optimistic entry. *)
Lemma fetchWithCache_success_witness :
  ∃ w' : World ApiCall,
    deliver (Fulfilled [mainWarehouse])
            (Awaiting ApiGetProducts (afterFetch "products"))
            (mkWorld (<["products" := mkSlot (Some [annexWarehouse]) (Some 1100) false]>
                        initialCache) 1250 [ApiGetProducts])
    = (Settled (inr (Some [mainWarehouse])), w')
    ∧ store w' !! "products" = Some (mkSlot (Some [mainWarehouse]) (Some 1250) false)
    ∧ (∀ k' : string, k' ≠ "products" →
         store w' !! k'
         = (<["products" := mkSlot (Some [annexWarehouse]) (Some 1100) false]>
              initialCache) !! k')
    ∧ calls w' = [ApiGetProducts]
    ∧ clock w' = 1250.
Proof.
  refine (fetchWithCache_success initialCache "products" ApiGetProducts false
            (mkWorld initialCache 1000 [])
            (mkWorld (setLoading "products" true initialCache) 1000 [ApiGetProducts])
            (Awaiting ApiGetProducts (afterFetch "products"))
            [mainWarehouse]
            (mkWorld (<["products" := mkSlot (Some [annexWarehouse]) (Some 1100) false]>
                        initialCache) 1250 [ApiGetProducts]) _ _).
  - reflexivity.
  - reflexivity.
Defined.

(** X2.  A call of [fetchWithCache] invokes the fetch function exactly when
    the snapshot has the slot, the slot is not loading, and the refresh is
    forced or the slot is not fresh; it then invokes it once, and otherwise
    not at all. *)
Theorem fetch_function_invoked_iff {F : Type} (snap : Cache) (key : string)
    (fn : F) (force : bool) (w : World F) :
  (isAwaiting (runSync (fetchWithCache snap key fn force) w).1 = true
   ↔ ∃ s : Slot, snap !! key = Some s ∧ loading s = false
                 ∧ (force = true ∨ fresh s (clock w) = false))
  ∧ calls (runSync (fetchWithCache snap key fn force) w).2
    = calls w
      ++ (if isAwaiting (runSync (fetchWithCache snap key fn force) w).1
          then [fn] else []).
Proof.
  rewrite fetchWithCache_run.
  destruct (snap !! key) as [s|] eqn:Hs.
  - destruct force; simpl.
    + destruct (loading s) eqn:Hl; simpl.
      * split; [|by rewrite app_nil_r].
        split; [discriminate|]. intros (s' & [= <-] & Hl' & _). congruence.
      * split; [|reflexivity]. split; [|reflexivity]. intros _. eauto.
    + destruct (fresh s (clock w)) eqn:Hf; simpl.
      * split; [|by rewrite app_nil_r].
        split; [discriminate|].
        intros (s' & [= <-] & _ & [Hforce | Hfresh]); congruence.
      * destruct (loading s) eqn:Hl; simpl.
        -- split; [|by rewrite app_nil_r].
           split; [discriminate|]. intros (s' & [= <-] & Hl' & _). congruence.
        -- split; [|reflexivity]. split; [|reflexivity]. intros _.
           exists s. rewrite Hf. auto.
  - simpl. split; [|by rewrite app_nil_r].
    split; [discriminate|]. intros (s' & Hs' & _). discriminate Hs'.
Qed.

(** X3.  After [invalidateCache(key)], the next call of [fetchWithCache]
    for that key from the new state invokes the fetch function, whatever
    the time and whether or not the refresh is forced; so does the next
    [getDocuments], with the unfiltered backend call. *)
Theorem invalidate_forces_refetch :
  (∀ (F : Type) (prev : Cache) (key : string) (fn : F) (force : bool) (w : World F),
     runSync (fetchWithCache (invalidateCache key prev) key fn force) w
     = (Awaiting fn (afterFetch key),
        mkWorld (setLoading key true (store w)) (clock w) (calls w ++ [fn])))
  ∧ (∀ (prev : Cache) (type sf : string) (force : bool) (w : World ApiCall),
       (runSync (getDocuments (invalidateCache type prev) type sf force) w).2
       = mkWorld (setLoading type true (store w)) (clock w)
                 (calls w ++ [ApiGetDocuments type "" ""])).
Proof.
  split.
  - intros F prev key fn force w.
    apply (fetchWithCache_starts _ _ _ _ _ emptySlot).
    + unfold invalidateCache. apply lookup_insert_eq.
    + reflexivity.
    + by rewrite andb_false_r.
  - intros prev type sf force w. rewrite getDocuments_run.
    unfold invalidateCache. rewrite lookup_insert_eq. simpl.
    by rewrite andb_false_r.
Qed.

(** X4.  Once a fetch has fulfilled, a call for the same key that is not
    forced, made from the resulting state less than five minutes after the
    arrival, resolves with the committed payload without invoking its fetch
    function and without touching the store. *)
Theorem refetch_within_window_is_served {F : Type} (snap : Cache) (key : string)
    (fn fn2 : F) (force : bool) (w0 w1 w w' w2 : World F) (t t' : Task F Data)
    (d : list Entity) :
  runSync (fetchWithCache snap key fn force) w0 = (t, w1) →
  isAwaiting t = true →
  deliver (Fulfilled d) t w = (t', w') →
  clock w ≠ 0 →
  clock w2 - clock w < CACHE_DURATION →
  runSync (fetchWithCache (store w') key fn2 false) w2 = (Settled (inr (Some d)), w2).
Proof.
  intros Hrun Ht Hdel Hnz Hlt.
  rewrite (awaiting_call_fulfilled snap key fn force w0 w1 t d w Hrun Ht) in Hdel.
  injection Hdel as <- <-.
  rewrite fetchWithCache_run. simpl store. unfold commitFetched at 1.
  rewrite lookup_insert_eq.
  assert (Hfresh : fresh (mkSlot (Some d) (Some (clock w)) false) (clock w2) = true).
  { unfold fresh. simpl. apply andb_true_iff. split; [|by apply Z.ltb_lt].
    apply negb_true_iff. by apply Z.eqb_neq. }
  simpl. by rewrite Hfresh.
Qed.

(** X4, on the initial store: warehouses fetched at time 2000 and asked for
    again four minutes later. *)
Lemma refetch_within_window_is_served_witness :
  runSync (fetchWithCache (commitFetched "warehouses" [mainWarehouse] 2000
                             (setLoading "warehouses" true initialCache))
             "warehouses" ApiGetWarehouses false)
          (mkWorld (commitFetched "warehouses" [mainWarehouse] 2000
                      (setLoading "warehouses" true initialCache))
                   242000 [ApiGetWarehouses])
  = (Settled (inr (Some [mainWarehouse])),
     mkWorld (commitFetched "warehouses" [mainWarehouse] 2000
                (setLoading "warehouses" true initialCache))
             242000 [ApiGetWarehouses]).
Proof.
  apply (refetch_within_window_is_served initialCache "warehouses"
           ApiGetWarehouses ApiGetWarehouses false
           (mkWorld initialCache 1000 [])
           (mkWorld (setLoading "warehouses" true initialCache) 1000 [ApiGetWarehouses])
           (mkWorld (setLoading "warehouses" true initialCache) 2000 [ApiGetWarehouses])
           (mkWorld (commitFetched "warehouses" [mainWarehouse] 2000
                       (setLoading "warehouses" true initialCache))
                    2000 [ApiGetWarehouses])
           (mkWorld (commitFetched "warehouses" [mainWarehouse] 2000
                       (setLoading "warehouses" true initialCache))
                    242000 [ApiGetWarehouses])
           (Awaiting ApiGetWarehouses (afterFetch "warehouses"))
           (Settled (inr (Some [mainWarehouse])))
           [mainWarehouse]).
  - reflexivity.
  - reflexivity.
  - reflexivity.
  - discriminate.
  - reflexivity.
Defined.

(** *** The slots of the store *)

Lemma runOp_dom (op : CacheOp) (now : Z) (c c' : Cache) :
  runOp op now c = Some c' → dom c ⊆ dom c'.
Proof.
  assert (Hins : ∀ (k : string) (v : Slot), dom c ⊆ dom (<[k := v]> c)).
  { intros k v. rewrite dom_insert_L. set_solver. }
  destruct op as [key [f|v]|key|h]; simpl.
  - destruct (c !! key); [|discriminate]. intros [= <-]. apply Hins.
  - intros [= <-]. apply Hins.
  - intros [= <-]. apply Hins.
  - rewrite runHelper_updateCache. simpl.
    destruct (c !! helperKey h); [|discriminate]. intros [= <-]. apply Hins.
Qed.

Lemma runOp_succeeds (op : CacheOp) (now : Z) (c : Cache) :
  is_Some (c !! opKey op) → is_Some (runOp op now c).
Proof.
  intros [s Hs]. destruct op as [key [f|v]|key|h]; simpl in *.
  - rewrite Hs. eauto.
  - eauto.
  - eauto.
  - rewrite runHelper_updateCache. simpl. rewrite Hs. eauto.
Qed.

Lemma hasAllSlots_dom (c : Cache) :
  hasAllSlots c ↔ ∀ k : string, k ∈ cacheKeys → k ∈ dom c.
Proof.
  unfold hasAllSlots. rewrite Forall_forall.
  split; intros H k Hk; [apply elem_of_dom|apply elem_of_dom]; auto.
Qed.

(** X6.  No operation removes a slot.  A sequence of [updateCache],
    [invalidateCache] and helper calls that runs to its end leaves every key
    that was in the store; when the store has the eight slots and every
    operation addresses one of the eight keys, no operation of the sequence
    throws and the store still has the eight slots afterwards; and the store
    updates of [fetchWithCache], at its start and when the fetch settles,
    leave every key as well. *)
Theorem store_keeps_its_slots :
  (∀ (ops : list (CacheOp * Z)) (c c' : Cache),
     runOps ops c = Some c' → dom c ⊆ dom c')
  ∧ (∀ (ops : list (CacheOp * Z)) (c : Cache),
       hasAllSlots c →
       Forall (fun o => opKey o.1 ∈ cacheKeys) ops →
       ∃ c' : Cache, runOps ops c = Some c' ∧ hasAllSlots c')
  ∧ (∀ (F : Type) (snap : Cache) (key : string) (fn : F) (force : bool)
       (w : World F) (o : Outcome) (w1 : World F),
       dom (store w) ⊆ dom (store (runSync (fetchWithCache snap key fn force) w).2)
       ∧ dom (store w1)
         ⊆ dom (store (deliver o (runSync (fetchWithCache snap key fn force) w).1 w1).2)).
Proof.
  assert (Hseq : ∀ (ops : list (CacheOp * Z)) (c c' : Cache),
            runOps ops c = Some c' → dom c ⊆ dom c').
  { induction ops as [|[op now] ops IH]; intros c c'; simpl.
    - by intros [= <-].
    - destruct (runOp op now c) as [c1|] eqn:Hop; [|discriminate].
      intros Hrest. apply runOp_dom in Hop. apply IH in Hrest. set_solver. }
  split; [exact Hseq|]. split.
  - induction ops as [|[op now] ops IH]; intros c Hall Hkeys; simpl.
    + eauto.
    + apply Forall_cons in Hkeys as [Hk Hkeys]. simpl in Hk.
      destruct (runOp_succeeds op now c) as [c1 Hop].
      { apply elem_of_dom. by apply hasAllSlots_dom. }
      rewrite Hop. apply IH; [|exact Hkeys].
      apply hasAllSlots_dom. intros k Hin.
      apply runOp_dom in Hop.
      apply (Hop k). by apply hasAllSlots_dom.
  - intros F snap key fn force w o w1. rewrite fetchWithCache_run.
    destruct (snap !! key) as [s|]; [|done].
    destruct (negb force && fresh s (clock w)); [done|].
    destruct (loading s); [done|].
    simpl. split.
    + unfold setLoading. rewrite dom_insert_L. set_solver.
    + destruct o as [d|e]; simpl.
      * unfold commitFetched. rewrite dom_insert_L. set_solver.
      * unfold setLoading. rewrite dom_insert_L. set_solver.
Qed.

(** *** Algebra of the helpers *)

Lemma filter_all (c : Entity -> bool) (l : list Entity) :
  Forall (fun w => c w = true) l → List.filter c l = l.
Proof.
  induction 1 as [|x l Hx _ IH]; simpl; [reflexivity|]. by rewrite Hx, IH.
Qed.

Lemma filter_filter (c1 c2 : Entity -> bool) (l : list Entity) :
  List.filter c1 (List.filter c2 l) = List.filter (fun w => c2 w && c1 w) l.
Proof.
  induction l as [|x l IH]; simpl; [reflexivity|].
  destruct (c2 x); simpl; [destruct (c1 x)|]; by rewrite IH.
Qed.

Lemma notIn_idsOf (id : option JsVal) (l : list Entity) :
  id ∉ idsOf l ↔ Forall (fun w => strictEq (w !! "id") id = false) l.
Proof.
  unfold idsOf. induction l as [|x l IH]; simpl.
  - split; [constructor|]. intros _ H. by apply elem_of_nil in H.
  - rewrite not_elem_of_cons, IH, Forall_cons, strictEq_false.
    split; intros [H1 H2]; (split; [congruence|exact H2]).
Qed.

Lemma map_if_absent (c : Entity -> bool) (g : Entity -> Entity) (l : list Entity) :
  Forall (fun w => c w = false) l → map (fun w => if c w then g w else w) l = l.
Proof.
  induction 1 as [|x l Hx _ IH]; simpl; [reflexivity|]. by rewrite Hx, IH.
Qed.

(** X8.  Adding an entry and then removing by that entry's id leaves in
    the slot exactly the entries of the previously cached sequence whose id
    differs, in their order, with the time of the removal; nothing of a
    slot whose data was [null], which then holds the empty sequence.
    - On a cached sequence this is what removing by that id alone leaves,
      and when no entry of the sequence had the id, the round trip gives
      the sequence back.
    - On a slot whose data is [null], removing alone leaves [null], while
      the round trip leaves the empty sequence. *)
Theorem add_then_remove (ha hr : Helper) (x : Entity) (now1 now2 : Z)
    (c : Cache) (s : Slot) :
  helperIntent ha = Add x → helperIntent hr = Remove (x !! "id") →
  helperKey hr = helperKey ha →
  c !! helperKey ha = Some s →
  (runHelper ha now1 c ≫= runHelper hr now2)
  = Some (<[helperKey ha :=
             mkSlot (Some (filter (fun w : Entity => w !! "id" ≠ x !! "id")
                                  (default [] (data s))))
                    (Some now2) false]> c)
  ∧ (∀ l : list Entity, data s = Some l →
       (runHelper ha now1 c ≫= runHelper hr now2) = runHelper hr now2 c
       ∧ ((x !! "id") ∉ idsOf l →
          (runHelper ha now1 c ≫= runHelper hr now2)
          = Some (<[helperKey ha := mkSlot (Some l) (Some now2) false]> c)))
  ∧ (data s = None →
       runHelper hr now2 c
       = Some (<[helperKey ha := mkSlot None (Some now2) false]> c)
       ∧ (runHelper ha now1 c ≫= runHelper hr now2)
         = Some (<[helperKey ha := mkSlot (Some []) (Some now2) false]> c)).
Proof.
  intros Ha Hr Hkey Hs.
  assert (Hboth : (runHelper ha now1 c ≫= runHelper hr now2)
    = Some (<[helperKey ha :=
               mkSlot (Some (filter (fun w : Entity => w !! "id" ≠ x !! "id")
                                    (default [] (data s))))
                      (Some now2) false]> c)).
  { rewrite !runHelper_updateCache, Hkey. unfold helperFunction. rewrite Ha, Hr.
    rewrite (updateCache_fun _ _ _ _ _ Hs). simpl.
    rewrite lookup_insert_eq, insert_insert_eq. simpl.
    assert (Hx : strictEq (x !! "id") (x !! "id") = true) by by apply strictEq_true.
    destruct (data s) as [l|]; simpl.
    - rewrite List.filter_app. simpl. rewrite Hx. simpl.
      by rewrite app_nil_r, filter_differs.
    - by rewrite Hx. }
  assert (Halone : runHelper hr now2 c
    = Some (<[helperKey ha :=
               mkSlot (match data s with
                       | Some l => Some (filter (fun w : Entity => w !! "id" ≠ x !! "id") l)
                       | None => None
                       end) (Some now2) false]> c)).
  { rewrite runHelper_updateCache, Hkey. unfold helperFunction. rewrite Hr.
    rewrite (updateCache_fun _ _ _ _ _ Hs).
    destruct (data s) as [l|]; simpl; [by rewrite filter_differs|reflexivity]. }
  split; [exact Hboth|]. split.
  - intros l Hl. rewrite Hboth, Halone, Hl. simpl. split; [reflexivity|].
    intros Hfresh. do 3 f_equal. f_equal.
    rewrite <- filter_differs. apply filter_all. apply notIn_idsOf in Hfresh.
    eapply Forall_impl; [exact Hfresh|]. intros w Hw. simpl in Hw. by rewrite Hw.
  - intros Hnone. rewrite Hboth, Halone, Hnone. by split.
Qed.

(** X8, on a store with two warehouses, to which a third is added and
    removed, and whose never-fetched [products] slot gets a product added
    and removed. *)
Lemma add_then_remove_witness :
  ((runHelper (HAddWarehouse {[ "id" := JNum 3 ]}) 6 twoWarehouses
      ≫= runHelper (HRemoveWarehouse (Some (JNum 3))) 7)
   = Some (<["warehouses" := mkSlot (Some [mainWarehouse; annexWarehouse]) (Some 7) false]>
             twoWarehouses))
  ∧ (runHelper (HRemoveProduct (Some (JNum 3))) 7 twoWarehouses
     = Some (<["products" := mkSlot None (Some 7) false]> twoWarehouses)
     ∧ (runHelper (HAddProduct {[ "id" := JNum 3 ]}) 6 twoWarehouses
          ≫= runHelper (HRemoveProduct (Some (JNum 3))) 7)
       = Some (<["products" := mkSlot (Some []) (Some 7) false]> twoWarehouses)).
Proof.
  split.
  - refine (proj1 (add_then_remove (HAddWarehouse {[ "id" := JNum 3 ]})
              (HRemoveWarehouse (Some (JNum 3))) {[ "id" := JNum 3 ]} 6 7 twoWarehouses
              (mkSlot (Some [mainWarehouse; annexWarehouse]) (Some 5) false)
              _ _ _ _)); reflexivity.
  - refine (proj2 (proj2 (add_then_remove (HAddProduct {[ "id" := JNum 3 ]})
              (HRemoveProduct (Some (JNum 3))) {[ "id" := JNum 3 ]} 6 7 twoWarehouses
              emptySlot _ _ _ _)) _); reflexivity.
Defined.

Lemma idsOf_map_if (c : Entity -> bool) (g : Entity -> Entity) (l : list Entity) :
  (∀ w : Entity, c w = true → g w !! "id" = w !! "id") →
  idsOf (map (fun w => if c w then g w else w) l) = idsOf l.
Proof.
  intros Hg. unfold idsOf. induction l as [|x l IH]; simpl; [reflexivity|].
  rewrite IH. f_equal. destruct (c x) eqn:Hc; [by apply Hg|reflexivity].
Qed.

Lemma helperFunction_idsAfter (h : Helper) (l l' : list Entity) :
  helperFunction h (Some l) = Some l' → idsAfter (helperIntent h) l l'.
Proof.
  unfold helperFunction.
  destruct (helperIntent h) as [x|id u|e|id]; simpl; intros [= <-].
  - unfold idsOf. by rewrite map_app.
  - split.
    + intros Hu. apply idsOf_map_if. intros w Hw. apply strictEq_true in Hw.
      rewrite spread_lookup. destruct Hu as [-> | ->]; [reflexivity|].
      destruct id; [|reflexivity]. by symmetry.
    + intros Habs. apply map_if_absent. by apply notIn_idsOf.
  - split.
    + apply idsOf_map_if. intros w Hw. apply strictEq_true in Hw. by symmetry.
    + intros Habs. apply map_if_absent. by apply notIn_idsOf.
  - split.
    + apply notIn_idsOf. apply Forall_forall. intros w Hw.
      apply filter_elem_of in Hw as [_ Hw]. by apply negb_true_iff.
    + intros Habs. apply filter_all. apply notIn_idsOf in Habs.
      eapply Forall_impl; [exact Habs|]. intros w Hw. simpl in Hw. by rewrite Hw.
Qed.

(** X9.  What a helper does to the identifiers of a cached sequence.  An
    add helper appends the new entry's id.  An update helper that is given
    an entry keeps the sequence of ids, and so does one that is given
    updates, provided the updates carry no id or the id they address; when
    no entry has the addressed id, an update helper changes nothing (it
    never inserts).  After a remove helper no entry has the removed id, and
    removing an id that no entry has changes nothing. *)
Theorem helper_identifiers (h : Helper) (now : Z) (prev next : Cache)
    (s : Slot) (l : list Entity) :
  prev !! helperKey h = Some s → data s = Some l →
  runHelper h now prev = Some next →
  ∃ l' : list Entity,
    next !! helperKey h = Some (mkSlot (Some l') (Some now) false)
    ∧ idsAfter (helperIntent h) l l'.
Proof.
  intros Hs Hl Hrun.
  rewrite runHelper_updateCache, (updateCache_fun _ _ _ _ _ Hs), Hl in Hrun.
  injection Hrun as <-.
  destruct (helperFunction_carriedOut h l) as (l' & Hf & _).
  exists l'. rewrite Hf, lookup_insert_eq. split; [reflexivity|].
  by apply helperFunction_idsAfter.
Qed.

(** X9, on a store with two warehouses: removing the one with id 2. *)
Lemma helper_identifiers_witness :
  ∃ l' : list Entity,
    (<["warehouses" := mkSlot (Some [mainWarehouse]) (Some 8) false]> twoWarehouses)
      !! helperKey (HRemoveWarehouse (Some (JNum 2)))
    = Some (mkSlot (Some l') (Some 8) false)
    ∧ idsAfter (helperIntent (HRemoveWarehouse (Some (JNum 2))))
               [mainWarehouse; annexWarehouse] l'.
Proof.
  refine (helper_identifiers (HRemoveWarehouse (Some (JNum 2))) 8 twoWarehouses
            (<["warehouses" := mkSlot (Some [mainWarehouse]) (Some 8) false]> twoWarehouses)
            (mkSlot (Some [mainWarehouse; annexWarehouse]) (Some 5) false)
            [mainWarehouse; annexWarehouse] _ _ _).
  - reflexivity.
  - reflexivity.
  - reflexivity.
Defined.

(** X10.  Every helper stamps its slot with the current time.  A call of
    [fetchWithCache] for the helper's key that is not forced, made from the
    resulting state less than five minutes later, is therefore answered
    with the sequence the helper left, however old the data was before, and
    does not reach the backend. *)
Theorem helper_renews_freshness {F : Type} (h : Helper) (now : Z)
    (prev next : Cache) (s' : Slot) (l' : list Entity) (fn : F) (w : World F) :
  runHelper h now prev = Some next →
  next !! helperKey h = Some s' → data s' = Some l' →
  now ≠ 0 → clock w - now < CACHE_DURATION →
  timestamp s' = Some now
  ∧ runSync (fetchWithCache next (helperKey h) fn false) w
    = (Settled (inr (Some l')), w).
Proof.
  intros Hrun Hs' Hl' Hnz Hlt.
  assert (Hts : timestamp s' = Some now).
  { rewrite runHelper_updateCache in Hrun. simpl in Hrun.
    destruct (prev !! helperKey h); [|discriminate].
    injection Hrun as <-. rewrite lookup_insert_eq in Hs'. by injection Hs' as <-. }
  split; [exact Hts|].
  rewrite fetchWithCache_run, Hs'.
  assert (Hfresh : fresh s' (clock w) = true).
  { unfold fresh. rewrite Hl', Hts. simpl. apply andb_true_iff.
    split; [|by apply Z.ltb_lt]. apply negb_true_iff. by apply Z.eqb_neq. }
  simpl. by rewrite Hfresh, Hl'.
Qed.

(** X10, on the initial store: a warehouse is added at time 7 to a slot that
    was never fetched; a read at time 100 gets that warehouse alone. *)
Lemma helper_renews_freshness_witness :
  timestamp (mkSlot (Some [mainWarehouse]) (Some 7) false) = Some 7
  ∧ runSync (fetchWithCache
               (<["warehouses" := mkSlot (Some [mainWarehouse]) (Some 7) false]> initialCache)
               (helperKey (HAddWarehouse mainWarehouse)) ApiGetWarehouses false)
            (mkWorld (<["warehouses" := mkSlot (Some [mainWarehouse]) (Some 7) false]>
                        initialCache) 100 [])
    = (Settled (inr (Some [mainWarehouse])),
       mkWorld (<["warehouses" := mkSlot (Some [mainWarehouse]) (Some 7) false]>
                  initialCache) 100 []).
Proof.
  refine (helper_renews_freshness (HAddWarehouse mainWarehouse) 7 initialCache
            (<["warehouses" := mkSlot (Some [mainWarehouse]) (Some 7) false]> initialCache)
            (mkSlot (Some [mainWarehouse]) (Some 7) false) [mainWarehouse]
            ApiGetWarehouses
            (mkWorld (<["warehouses" := mkSlot (Some [mainWarehouse]) (Some 7) false]>
                        initialCache) 100 []) _ _ _ _ _).
  - reflexivity.
  - reflexivity.
  - reflexivity.
  - discriminate.
  - reflexivity.
Defined.

(** *** Status views *)

Lemma hasStatus_true (sf : string) (doc : Entity) :
  hasStatus sf doc = true ↔ doc !! "status" = Some (JStr sf).
Proof. unfold hasStatus. apply strictEq_true. Qed.

Lemma status_partition (a b : string) (l : list Entity) :
  a ≠ b →
  Forall (fun d => d !! "status" = Some (JStr a) ∨ d !! "status" = Some (JStr b)) l →
  l ≡ₚ List.filter (hasStatus a) l ++ List.filter (hasStatus b) l.
Proof.
  intros Hab. induction 1 as [|x l Hx _ IH]; simpl; [reflexivity|].
  destruct Hx as [Hx | Hx].
  - assert (Ha : hasStatus a x = true) by by apply hasStatus_true.
    assert (Hb : hasStatus b x = false).
    { apply not_true_iff_false. rewrite hasStatus_true, Hx. congruence. }
    rewrite Ha, Hb. simpl. by constructor.
  - assert (Hb : hasStatus b x = true) by by apply hasStatus_true.
    assert (Ha : hasStatus a x = false).
    { apply not_true_iff_false. rewrite hasStatus_true, Hx. congruence. }
    rewrite Ha, Hb. rewrite <- Permutation_middle. by constructor.
Qed.

(** X11.  The list a caller of [getDocuments] is handed, as a view of the
    unfiltered list: it keeps the order of the unfiltered list; with a
    filter every document in it has that status and filtering again changes
    nothing; an empty filter shows everything; and when every document has
    one of two distinct statuses, the views for the two statuses together
    hold each document exactly once. *)
Theorem status_views (a b : string) (l : list Entity) :
  sublist (visibleDocuments a l) l
  ∧ visibleDocuments "" l = l
  ∧ visibleDocuments a (visibleDocuments a l) = visibleDocuments a l
  ∧ (truthyString a = true →
     ∀ d : Entity, d ∈ visibleDocuments a l ↔ d ∈ l ∧ d !! "status" = Some (JStr a))
  ∧ (truthyString a = true → truthyString b = true → a ≠ b →
     Forall (fun d => d !! "status" = Some (JStr a) ∨ d !! "status" = Some (JStr b)) l →
     l ≡ₚ visibleDocuments a l ++ visibleDocuments b l).
Proof.
  unfold visibleDocuments. split; [|split; [|split; [|split]]].
  - destruct (truthyString a); [apply filter_sublist|reflexivity].
  - reflexivity.
  - destruct (truthyString a); [|reflexivity].
    rewrite filter_filter. apply filter_ext. intros d. apply andb_diag.
  - intros -> d. by rewrite filter_elem_of, hasStatus_true.
  - intros -> -> Hab Hall. by apply status_partition.
Qed.

(** X12.  [getDocuments] answers from the snapshot of the render it was
    created in.  A call without forced refresh made through such a closure
    right after [invalidateCache] has run on the store, as the reload in
    [handleConfirm] and in the error path of [handleSubmit] is, does not see
    the invalidation: while the snapshot's slot is fresh it returns the
    snapshot's documents, calls no backend function and leaves the slot of
    the store empty. *)
Theorem reload_reads_render_snapshot (snap : Cache) (type sf : string) (s : Slot)
    (l : list Entity) (w : World ApiCall) :
  snap !! type = Some s → data s = Some l → fresh s (clock w) = true →
  store w = invalidateCache type snap →
  runSync (getDocuments snap type sf false) w
  = (Settled (inr (Some (visibleDocuments sf l))), w)
  ∧ store w !! type = Some emptySlot.
Proof.
  intros Hs Hl Hf Hstore. split.
  - rewrite getDocuments_run, Hs. simpl. by rewrite Hf, Hl.
  - rewrite Hstore. unfold invalidateCache. apply lookup_insert_eq.
Qed.

(** X12, on receipts fetched at time 1000, invalidated and reloaded at time
    30000 through the closure of the earlier render. *)
Lemma reload_reads_render_snapshot_witness :
  runSync (getDocuments receiptsFetched "receipts" "" false)
          (mkWorld (invalidateCache "receipts" receiptsFetched) 30000
                   [ApiConfirmDocument "receipts" (Some (JNum 1))])
  = (Settled (inr (Some (visibleDocuments "" [draftReceipt; confirmedReceipt]))),
     mkWorld (invalidateCache "receipts" receiptsFetched) 30000
             [ApiConfirmDocument "receipts" (Some (JNum 1))])
  ∧ store (mkWorld (invalidateCache "receipts" receiptsFetched) 30000
                   [ApiConfirmDocument "receipts" (Some (JNum 1))]) !! "receipts"
    = Some emptySlot.
Proof.
  refine (reload_reads_render_snapshot receiptsFetched "receipts" ""
            (mkSlot (Some [draftReceipt; confirmedReceipt]) (Some 1000) false)
            [draftReceipt; confirmedReceipt]
            (mkWorld (invalidateCache "receipts" receiptsFetched) 30000
                     [ApiConfirmDocument "receipts" (Some (JNum 1))]) _ _ _ _).
  - reflexivity.
  - reflexivity.
  - reflexivity.
  - reflexivity.
Defined.

(** ** The session *)

Lemma sessionStep_cache (a : App) (e : SessionEvent) :
  cacheState (sessionStep a e) = cacheState a.
Proof. destruct e as [[error|data]| | |[error|me]]; reflexivity. Qed.

Lemma sessionStep_tokenBacksUser (a : App) (e : SessionEvent) :
  byUser e = true → tokenBacksUser a → tokenBacksUser (sessionStep a e).
Proof.
  unfold tokenBacksUser.
  destruct e as [[error|data]| | |response]; simpl; intros He Ha Hu.
  - by apply Ha.
  - rewrite lookup_insert_eq. eauto.
  - done.
  - done.
  - discriminate.
Qed.

(** X13.  No change of session touches the cache: through every sequence
    of logins (successful or failed), logouts and answers to the session
    restore, the cache is left exactly as it was.  Through logins and
    logouts a user is set only while a token is stored, and so it is when
    the answer to the restore's [api.getMe] arrives in the state the
    provider mounted in (a truthy token, no user).  An answer that arrives
    after a successful login does not keep this: when the request fails,
    its handler removes the token the login has just stored and leaves the
    user of the login set. *)
Theorem session_keeps_token_and_cache :
  (∀ (events : list SessionEvent) (a : App),
     cacheState (sessionRun events a) = cacheState a)
  ∧ (∀ (events : list SessionEvent) (a : App),
       forallb byUser events = true →
       tokenBacksUser a → tokenBacksUser (sessionRun events a))
  ∧ (∀ (response : Err + Entity) (a : App),
       restoreStarts a = true → user a = None →
       tokenBacksUser (restoreSettles response a))
  ∧ (∀ (error : Err) (data : LoginData) (a : App),
       user (sessionRun [EvLogin (inr data); EvRestoreSettles (inl error)] a)
       = Some (loginUser data)
       ∧ localStorage (sessionRun [EvLogin (inr data); EvRestoreSettles (inl error)] a)
           !! "token" = None).
Proof.
  split; [|split; [|split]].
  - unfold sessionRun. induction events as [|e events IH]; intros a; simpl.
    + reflexivity.
    + by rewrite IH, sessionStep_cache.
  - unfold sessionRun.
    induction events as [|e events IH]; intros a Hev Ha; simpl in *.
    + exact Ha.
    + apply andb_true_iff in Hev as [He Hev].
      apply IH; [exact Hev|]. by apply sessionStep_tokenBacksUser.
  - intros response a Hstart Hu. unfold restoreStarts in Hstart.
    unfold tokenBacksUser.
    destruct response as [error|me]; simpl.
    + by rewrite Hu.
    + intros _. destruct (localStorage a !! "token"); [eauto|discriminate].
  - intros error data a. simpl. split; [reflexivity|].
    apply lookup_delete_eq.
Qed.

(** X14.  Logging out undoes a login as far as the session goes: the state
    after login and logout is the state after logout alone, and logging out
    twice is logging out once.  After a logout no request carries an
    [Authorization] header and a guarded route that has finished loading
    navigates to [/login]; after a login that stored a non-empty token every
    request carries that token as bearer. *)
Theorem logout_ends_session (data : LoginData) (a : App) :
  logout (login (inr data) a).1 = logout a
  ∧ logout (logout a) = logout a
  ∧ getAuthHeaders (logout a) = {[ "Content-Type" := "application/json" ]}
  ∧ PrivateRoute (user (handleLogout a)) false = NavigateTo "/login"
  ∧ (truthyString (access_token data) = true →
     getAuthHeaders (login (inr data) a).1 !! "Authorization"
     = Some (String.append "Bearer " (access_token data))).
Proof.
  split; [|split; [|split; [|split]]].
  - unfold logout. simpl. by rewrite delete_insert_eq.
  - unfold logout. simpl. f_equal. apply delete_id, lookup_delete_eq.
  - unfold getAuthHeaders, logout. simpl. by rewrite lookup_delete_eq.
  - reflexivity.
  - intros Htok. unfold getAuthHeaders. simpl.
    rewrite lookup_insert_eq, Htok. apply lookup_insert_eq.
Qed.

(** *** Role guards *)

Lemma includesRole_true (roles : list string) (role : option JsVal) :
  includesRole roles role = true ↔ ∃ r : string, r ∈ roles ∧ role = Some (JStr r).
Proof.
  unfold includesRole. rewrite existsb_exists. split.
  - intros (r & Hin & Heq). exists r. split; [by apply list_elem_of_In|].
    by apply strictEq_true.
  - intros (r & Hin & Heq). exists r. split; [by apply list_elem_of_In|].
    by apply strictEq_true.
Qed.

(** X15.  The role guards agree with each other and with the flags of the
    authentication context.  The [RoleGuard] component shows its children
    exactly when [useRole] holds for the same roles; [AdminOnly] and
    [useRole('ADMIN')] are [isAdmin], and [StaffAndAdmin] is
    [isAdmin || isStaff]; a guard with more roles admits every user a guard
    with fewer roles admits; no user is both administrator and staff, and
    without a user every guard refuses. *)
Theorem role_guards_agree (user : option Entity) :
  (∀ (V : Type) (roles : list string) (children fallback : V),
     RoleGuard roles user children fallback
     = if useRole (ManyRoles roles) user then children else fallback)
  ∧ useRole (OneRole "ADMIN") user = isAdmin user
  ∧ useRole (ManyRoles ["ADMIN"]) user = isAdmin user
  ∧ useRole (ManyRoles ["ADMIN"; "STAFF"]) user = isAdmin user || isStaff user
  ∧ (∀ (V : Type) (children fallback : V),
       AdminOnly user children fallback
       = if canEditMasterData user then children else fallback)
  ∧ (∀ roles roles' : list string,
       roles ⊆ roles' →
       useRole (ManyRoles roles) user = true → useRole (ManyRoles roles') user = true)
  ∧ isAdmin user && isStaff user = false
  ∧ (user = None → ∀ roles : RolesArg, useRole roles user = false).
Proof.
  split; [|split; [|split; [|split; [|split; [|split; [|split]]]]]].
  - intros V roles children fallback. destruct user as [u|]; reflexivity.
  - destruct user as [u|]; reflexivity.
  - destruct user as [u|]; simpl; [apply orb_false_r|reflexivity].
  - destruct user as [u|]; simpl; [|reflexivity]. by rewrite orb_false_r.
  - intros V children fallback. unfold AdminOnly, canEditMasterData.
    destruct user as [u|]; simpl; [|reflexivity]. by rewrite orb_false_r.
  - intros roles roles' Hsub. destruct user as [u|]; simpl; [|discriminate].
    rewrite !includesRole_true. intros (r & Hin & Heq). exists r. split; [|exact Heq].
    by apply Hsub.
  - unfold isAdmin, isStaff.
    destruct (strictEq _ (Some (JStr "ADMIN"))) eqn:Ha; [|reflexivity].
    apply strictEq_true in Ha. rewrite Ha. reflexivity.
  - intros ->. by intros [r|l].
Qed.

(** ** The receipt form *)

Lemma filterIndex_above {A : Type} (i : nat) (l : list A) (k : nat) :
  (i < k)%nat → filterIndex (fun j => negb (j =? i)%nat) k l = l.
Proof.
  revert k. induction l as [|x l IH]; intros k Hk; simpl; [reflexivity|].
  destruct (Nat.eqb_spec k i) as [->|_]; [lia|]. simpl.
  rewrite IH; [reflexivity|lia].
Qed.

Lemma filterIndex_delete {A : Type} (l : list A) (index k t : nat) :
  t = (k + index)%nat →
  filterIndex (fun j => negb (j =? t)%nat) k l = delete index l.
Proof.
  revert index k. induction l as [|x l IH]; intros index k Ht; simpl.
  - by destruct index.
  - destruct index as [|index]; simpl.
    + destruct (Nat.eqb_spec k t) as [_|Hne]; [|lia]. simpl.
      apply filterIndex_above. lia.
    + destruct (Nat.eqb_spec k t) as [Heq|_]; [lia|]. simpl.
      f_equal. apply IH. lia.
Qed.

Lemma delete_out_of_range {A : Type} (l : list A) (i : nat) :
  (length l ≤ i)%nat → delete i l = l.
Proof.
  intros Hi. rewrite delete_take_drop, take_ge, drop_ge by lia. apply app_nil_r.
Qed.

Lemma formOk_lineAt (h : Heap) (formData : FormData) (i : nat) :
  formOk h formData → (i < length (lines formData))%nat → is_Some (lineAt h formData i).
Proof.
  intros [_ Hall] Hi. unfold lineAt.
  destruct (lookup_lt_is_Some_2 (lines formData) i Hi) as [r Hr]. rewrite Hr.
  rewrite Forall_forall in Hall. apply Hall. by eapply list_elem_of_lookup_2.
Qed.

(** X16.  Adding and removing lines of the receipt form.  [removeLine]
    removes the line at the given position and shifts the later lines down;
    for a position past the end it leaves the form as it is.  [addLine]
    appends a blank line and leaves every existing line as it was, so adding
    a line and removing the last one gives the form back.  Both keep the
    line references distinct and allocated. *)
Theorem form_add_remove_line (h : Heap) (formData : FormData) (index : nat) :
  lines (removeLine index formData) = delete index (lines formData)
  ∧ ((length (lines formData) ≤ index)%nat → removeLine index formData = formData)
  ∧ removeLine (length (lines formData)) (addLine h formData).2 = formData
  ∧ (formOk h formData →
     formOk h (removeLine index formData)
     ∧ formOk (addLine h formData).1 (addLine h formData).2
     ∧ lineAt (addLine h formData).1 (addLine h formData).2 (length (lines formData))
       = Some blankLine
     ∧ ∀ i : nat, (i < length (lines formData))%nat →
         lineAt (addLine h formData).1 (addLine h formData).2 i = lineAt h formData i).
Proof.
  assert (Hrm : lines (removeLine index formData) = delete index (lines formData)).
  { simpl. by apply filterIndex_delete. }
  split; [exact Hrm|]. split; [|split].
  - intros Hi. destruct formData as [d wh sup ls]. unfold removeLine. simpl in *.
    f_equal. rewrite (filterIndex_delete ls index 0 index eq_refl).
    by apply delete_out_of_range.
  - destruct formData as [d wh sup ls]. unfold removeLine, addLine. simpl.
    f_equal. rewrite (filterIndex_delete _ (length ls) 0 (length ls) eq_refl).
    rewrite (delete_middle ls [] (base.fresh (dom h))). apply app_nil_r.
  - intros [Hnd Hall].
    assert (Hfresh : base.fresh (dom h) ∉ lines formData).
    { intros Hin. rewrite Forall_forall in Hall. apply Hall in Hin.
      apply elem_of_dom in Hin. by apply is_fresh in Hin. }
    split; [|split; [|split]].
    + split; rewrite Hrm.
      * eapply sublist_NoDup; [exact Hnd|apply sublist_delete].
      * by apply Forall_delete.
    + split; simpl.
      * apply NoDup_app. split; [exact Hnd|]. split; [|apply NoDup_singleton].
        intros r Hr Hr'. apply list_elem_of_singleton in Hr'. by subst r.
      * apply Forall_app. split.
        -- eapply Forall_impl; [exact Hall|]. intros r [line Hr]. simpl.
           destruct (decide (base.fresh (dom h) = r)) as [->|Hne].
           ++ rewrite lookup_insert_eq. eauto.
           ++ rewrite lookup_insert_ne by done. eauto.
        -- apply Forall_singleton. rewrite lookup_insert_eq. eauto.
    + unfold lineAt. simpl.
      rewrite lookup_app_r by lia. rewrite Nat.sub_diag. simpl.
      apply lookup_insert_eq.
    + intros i Hi. unfold lineAt. simpl. rewrite lookup_app_l by lia.
      destruct (lines formData !! i) as [r|] eqn:Hr; [|reflexivity].
      apply lookup_insert_ne. intros <-. apply Hfresh.
      by eapply list_elem_of_lookup_2.
Qed.

(** X17.  [updateLine] writes one property of one line object.  On a form
    whose references are distinct and allocated, it fails exactly when
    there is no line at the position (the write to [undefined] throws);
    otherwise the form holds the same line references as before, so the
    array of the previous state shows the write as well; the line at the
    position has the property set to the value and its other properties
    unchanged, and every other line is untouched. *)
Theorem updateLine_writes_through (h : Heap) (formData : FormData) (index : nat)
    (field : string) (value : JsVal) :
  formOk h formData →
  match updateLine index field value h formData with
  | Some (h', formData') =>
      (index < length (lines formData))%nat
      ∧ formData' = formData
      ∧ formOk h' formData'
      ∧ lineAt h' formData index = (fun line => <[field := value]> line) <$> lineAt h formData index
      ∧ ∀ j : nat, j ≠ index → lineAt h' formData j = lineAt h formData j
  | None => (length (lines formData) ≤ index)%nat
  end.
Proof.
  intros [Hnd Hall]. unfold updateLine.
  destruct (lines formData !! index) as [r|] eqn:Hr.
  - assert (Hin : r ∈ lines formData) by by eapply list_elem_of_lookup_2.
    rewrite Forall_forall in Hall. destruct (Hall r Hin) as [line Hline].
    rewrite Hline. split; [by eapply lookup_lt_Some|].
    split; [by destruct formData|]. split; [|split].
    + split; simpl; [exact Hnd|]. apply Forall_forall. intros r' Hr'.
      destruct (decide (r = r')) as [->|Hne].
      * rewrite lookup_insert_eq. eauto.
      * rewrite lookup_insert_ne by done. by apply Hall.
    + unfold lineAt. rewrite Hr, Hline. simpl. apply lookup_insert_eq.
    + intros j Hj. unfold lineAt.
      destruct (lines formData !! j) as [r'|] eqn:Hr'; [|reflexivity].
      apply lookup_insert_ne. intros <-. apply Hj.
      by eapply NoDup_lookup.
  - by apply lookup_ge_None.
Qed.

(** X17, on a form with two lines: the quantity of the second is set. *)
Lemma updateLine_writes_through_witness :
  match updateLine 1 "quantity" (JNum 4)
          (<[1%nat := blankLine]> (<[0%nat := blankLine]> ∅))
          (mkForm "2025-11-22" "w1" "Acme" [0%nat; 1%nat]) with
  | Some (h', formData') =>
      (1 < length (lines (mkForm "2025-11-22" "w1" "Acme" [0%nat; 1%nat])))%nat
      ∧ formData' = mkForm "2025-11-22" "w1" "Acme" [0%nat; 1%nat]
      ∧ formOk h' formData'
      ∧ lineAt h' (mkForm "2025-11-22" "w1" "Acme" [0%nat; 1%nat]) 1
        = (fun line => <["quantity" := JNum 4]> line)
            <$> lineAt (<[1%nat := blankLine]> (<[0%nat := blankLine]> ∅))
                       (mkForm "2025-11-22" "w1" "Acme" [0%nat; 1%nat]) 1
      ∧ ∀ j : nat, j ≠ 1%nat →
          lineAt h' (mkForm "2025-11-22" "w1" "Acme" [0%nat; 1%nat]) j
          = lineAt (<[1%nat := blankLine]> (<[0%nat := blankLine]> ∅))
                   (mkForm "2025-11-22" "w1" "Acme" [0%nat; 1%nat]) j
  | None => (length (lines (mkForm "2025-11-22" "w1" "Acme" [0%nat; 1%nat])) ≤ 1)%nat
  end.
Proof.
  refine (updateLine_writes_through
            (<[1%nat := blankLine]> (<[0%nat := blankLine]> ∅))
            (mkForm "2025-11-22" "w1" "Acme" [0%nat; 1%nat]) 1 "quantity" (JNum 4) _).
  split; simpl.
  - apply NoDup_cons. split; [|apply NoDup_singleton].
    intros Hin. apply list_elem_of_singleton in Hin. discriminate Hin.
  - repeat constructor; eauto.
Defined.

(** ** Handlers of the receipts page *)

(** X18.  [handleSubmit] of the receipts page calls the backend first and
    once.  It patches the cache only with the row the backend returned,
    after the call succeeded: a merge by id when a receipt was being
    edited, an append when it was new.  When the call failed it patches
    nothing, invalidates the [receipts] key and reloads; on a store that
    holds the slot this leaves the slot empty.  No other key is written in
    either case. *)
Theorem handleSubmit_patches_after_success (editingDoc : option Entity)
    (formData : Entity) (response : Err + Entity) :
  (∃ c : ApiCall,
     head (handleSubmit editingDoc formData response) = Some (ECallApi c)
     ∧ apiCallsOf (handleSubmit editingDoc formData response) = [c])
  ∧ match response with
    | inr saved =>
        opsOf (handleSubmit editingDoc formData response)
        = [OpHelper match editingDoc with
                    | Some doc => HUpdateDocument "receipts" (doc !! "id") saved
                    | None => HAddDocument "receipts" saved
                    end]
    | inl error =>
        opsOf (handleSubmit editingDoc formData response)
        = [OpInvalidateCache "receipts"]
        ∧ last (handleSubmit editingDoc formData response) = Some ELoadData
        ∧ ∀ (now : Z) (c : Cache),
            runOps (map (fun op => (op, now))
                        (opsOf (handleSubmit editingDoc formData response))) c
            = Some (<["receipts" := emptySlot]> c)
    end
  ∧ Forall (fun op => opKey op = "receipts")
           (opsOf (handleSubmit editingDoc formData response)).
Proof.
  destruct editingDoc as [doc|], response as [error|saved]; simpl;
    (split; [eexists; split; reflexivity|]);
    (split; [try (split; [|split]); try reflexivity|repeat constructor]).
Qed.

(** ** The stock page *)

Lemma includes_true (ids : list (option JsVal)) (x : option JsVal) :
  StockPage.includes ids x = true ↔ x ∈ ids.
Proof.
  unfold StockPage.includes. rewrite existsb_exists. split.
  - intros (y & Hin & Heq). apply strictEq_true in Heq. subst y.
    by apply list_elem_of_In.
  - intros Hin. exists x. split; [by apply list_elem_of_In|by apply strictEq_true].
Qed.

Lemma propIs_true (prop value : string) (s : Entity) :
  StockPage.propIs prop value s = true ↔ s !! prop = Some (JStr value).
Proof. unfold StockPage.propIs. apply strictEq_true. Qed.

Lemma distinct_spec (values seen : list (option JsVal)) :
  NoDup (StockPage.distinct seen values)
  ∧ ∀ v : option JsVal,
      v ∈ StockPage.distinct seen values ↔ v ∈ values ∧ v ∉ seen.
Proof.
  revert seen. induction values as [|x values IH]; intros seen; simpl.
  - split; [constructor|]. intros v. split; [by intros H%elem_of_nil|].
    by intros [H%elem_of_nil _].
  - destruct (StockPage.includes seen x) eqn:Hx.
    + apply includes_true in Hx. destruct (IH seen) as [Hnd Hin].
      split; [exact Hnd|]. intros v. rewrite Hin, elem_of_cons.
      split; [tauto|]. intros [[-> | Hv] Hns]; [contradiction|tauto].
    + assert (Hx' : x ∉ seen).
      { intros Hin. apply includes_true in Hin. congruence. }
      destruct (IH (x :: seen)) as [Hnd Hin]. split.
      * apply NoDup_cons. split; [|exact Hnd].
        rewrite Hin. intros [_ Hns]. apply Hns. by left.
      * intros v. rewrite elem_of_cons, Hin, not_elem_of_cons, elem_of_cons.
        split.
        -- intros [-> | [Hv [Hne Hns]]]; [tauto|tauto].
        -- intros [[-> | Hv] Hns]; [tauto|].
           destruct (decide (v = x)) as [->|Hne]; [tauto|tauto].
Qed.

(** X20.  The rows of the stock page.  The rows shown are rows of the
    fetched stock, in their order; a row is shown exactly when it passes
    every filter that is set: its product is the chosen product, its
    warehouse the chosen warehouse, and its product is one of the cached
    products of the chosen category.  With no filter set all rows are
    shown.  The category options are the categories of the cached products,
    each listed once. *)
Theorem stock_rows (allStock products : list Entity) (filters : StockPage.Filters) :
  sublist (StockPage.stock allStock products filters) allStock
  ∧ (∀ s : Entity,
       s ∈ StockPage.stock allStock products filters ↔
       s ∈ allStock
       ∧ (truthyString (StockPage.product_id filters) = true →
          s !! "product_id" = Some (JStr (StockPage.product_id filters)))
       ∧ (truthyString (StockPage.warehouse_id filters) = true →
          s !! "warehouse_id" = Some (JStr (StockPage.warehouse_id filters)))
       ∧ (truthyString (StockPage.category filters) = true →
          ∃ p : Entity, p ∈ products
            ∧ p !! "category" = Some (JStr (StockPage.category filters))
            ∧ p !! "id" = s !! "product_id"))
  ∧ StockPage.stock allStock products (StockPage.mkFilters "" "" "") = allStock
  ∧ NoDup (StockPage.categories products)
  ∧ (∀ c : option JsVal,
       c ∈ StockPage.categories products ↔ ∃ p : Entity, p ∈ products ∧ p !! "category" = c).
Proof.
  split; [|split; [|split; [|split]]].
  - unfold StockPage.stock.
    destruct (truthyString (StockPage.product_id filters)),
             (truthyString (StockPage.warehouse_id filters)),
             (truthyString (StockPage.category filters));
      repeat (etrans; [apply filter_sublist|]); reflexivity.
  - intros s. unfold StockPage.stock.
    assert (Hcat : ∀ cat : string,
      StockPage.includes
        (map (fun p => p !! "id") (List.filter (StockPage.propIs "category" cat) products))
        (s !! "product_id") = true
      ↔ ∃ p : Entity, p ∈ products ∧ p !! "category" = Some (JStr cat)
                      ∧ p !! "id" = s !! "product_id").
    { intros cat. rewrite includes_true.
      change (map ?f ?l) with (f <$> l). rewrite list_elem_of_fmap. split.
      - intros (p & Hid & Hp). apply filter_elem_of in Hp as [Hp Hc].
        apply propIs_true in Hc. eauto.
      - intros (p & Hp & Hc & Hid). exists p. split; [done|].
        apply filter_elem_of. split; [done|]. by apply propIs_true. }
    destruct (truthyString (StockPage.product_id filters)),
             (truthyString (StockPage.warehouse_id filters)),
             (truthyString (StockPage.category filters));
      rewrite ?filter_elem_of, ?propIs_true, ?Hcat; intuition congruence.
  - reflexivity.
  - apply distinct_spec.
  - intros c. unfold StockPage.categories.
    destruct (distinct_spec (map (fun p => p !! "category") products) []) as [_ Hin].
    rewrite Hin. change (map ?f ?l) with (f <$> l). rewrite list_elem_of_fmap.
    split.
    + intros [(p & -> & Hp) _]. eauto.
    + intros (p & Hp & <-). split; [eauto|]. by intros H%elem_of_nil.
Qed.

(** ** The search bar *)

(** With no suggestions and the list closed, an event leaves the component
    that way. *)
Lemma step_stays_closed (trimmedLength : string -> nat) (e : SearchBar.Event)
    (st : SearchBar.State) :
  SearchBar.suggestions st = [] → SearchBar.showSuggestions st = false →
  SearchBar.selectedIndex st = -1 →
  ∃ st1 : SearchBar.State,
    SearchBar.step trimmedLength e st = (st1, None)
    ∧ SearchBar.suggestions st1 = []
    ∧ SearchBar.showSuggestions st1 = false
    ∧ SearchBar.selectedIndex st1 = -1.
Proof.
  intros Hsug Hshow Hsel. destruct e as [value|response| | |key|index]; simpl.
  - eauto.
  - unfold SearchBar.fetchSuggestions.
    destruct (trimmedLength (SearchBar.query st) <? 2)%nat; [eauto|].
    assert (Hcall : SearchBar.awaitApi "smartSearch" response = inl TypeError)
      by reflexivity.
    rewrite Hcall. eauto.
  - rewrite Hsug. simpl. rewrite andb_false_r. eauto.
  - eauto.
  - unfold SearchBar.handleKeyDown. rewrite Hshow. simpl. eauto.
  - unfold SearchBar.dropdownShown. rewrite Hshow. simpl. eauto.
Qed.

(** X21.  The suggestion list of the search bar never opens.  The timer
    behind the query calls [api.smartSearch], which is not a member of the
    [api] object ([searchSuggestions] is): the call throws inside the [try]
    and the handler sets the suggestions to the empty list.  So through
    every run of events from the mounted state (typing, timers, focus,
    mouse presses outside, key presses, clicks), whatever [trim] makes of
    the query: the suggestions stay empty, the list stays closed and
    nothing highlighted, the dropdown is not rendered, no suggestion is
    ever navigated to, and every key press leaves the state as it is. *)
Theorem search_list_never_opens :
  ("smartSearch" ∉ SearchBar.apiMembers)
  ∧ "searchSuggestions" ∈ SearchBar.apiMembers
  ∧ ∀ (trimmedLength : string -> nat) (events : list SearchBar.Event),
      SearchBar.suggestions (SearchBar.run trimmedLength events SearchBar.initialState).1 = []
      ∧ SearchBar.showSuggestions
          (SearchBar.run trimmedLength events SearchBar.initialState).1 = false
      ∧ SearchBar.selectedIndex
          (SearchBar.run trimmedLength events SearchBar.initialState).1 = -1
      ∧ SearchBar.dropdownShown
          (SearchBar.run trimmedLength events SearchBar.initialState).1 = false
      ∧ (SearchBar.run trimmedLength events SearchBar.initialState).2 = []
      ∧ ∀ key : SearchBar.Key,
          SearchBar.handleKeyDown key
            (SearchBar.run trimmedLength events SearchBar.initialState).1
          = ((SearchBar.run trimmedLength events SearchBar.initialState).1, None).
Proof.
  split; [|split].
  - refine (bool_decide_eq_false_1 _ _). reflexivity.
  - refine (bool_decide_eq_true_1 _ _). reflexivity.
  - intros trimmedLength events.
    assert (Hinv : ∀ st : SearchBar.State,
      SearchBar.suggestions st = [] → SearchBar.showSuggestions st = false →
      SearchBar.selectedIndex st = -1 →
      SearchBar.suggestions (SearchBar.run trimmedLength events st).1 = []
      ∧ SearchBar.showSuggestions (SearchBar.run trimmedLength events st).1 = false
      ∧ SearchBar.selectedIndex (SearchBar.run trimmedLength events st).1 = -1
      ∧ (SearchBar.run trimmedLength events st).2 = []).
    { induction events as [|e events IH]; intros st Hsug Hshow Hsel; simpl.
      - auto.
      - destruct (step_stays_closed trimmedLength e st Hsug Hshow Hsel)
          as (st1 & -> & Hsug1 & Hshow1 & Hsel1).
        specialize (IH st1 Hsug1 Hshow1 Hsel1).
        destruct (SearchBar.run trimmedLength events st1) as [st2 rest].
        exact IH. }
    destruct (Hinv SearchBar.initialState) as (Hsug & Hshow & Hsel & Hnone);
      [reflexivity|reflexivity|reflexivity|].
    split; [exact Hsug|]. split; [exact Hshow|]. split; [exact Hsel|].
    split; [unfold SearchBar.dropdownShown; by rewrite Hshow|].
    split; [exact Hnone|].
    intros key. unfold SearchBar.handleKeyDown. by rewrite Hshow.
Qed.

(** ** Handlers of the master-data pages *)

(** X22.  Saving an edited warehouse never reaches the backend.  The page
    takes [updateWarehouseCache] from the cache context, which has no member
    of that name, so the call throws inside the [try] block before
    [api.updateWarehouse] is reached: whatever the form holds, the handler
    alerts and reloads, patches nothing and sends nothing.  Creating a
    warehouse does call the backend, and patches the cache after it
    succeeded. *)
Theorem warehouse_edit_never_saves (ew formData : Entity) (response : Err + Entity) :
  cacheContextValue !! "updateWarehouseCache" = None
  ∧ Warehouses_handleSubmit (Some ew) formData response
    = [MAlert "Failed to save warehouse: " (Some TypeError); MLoadData]
  ∧ backendCallsOf (Warehouses_handleSubmit (Some ew) formData response) = []
  ∧ cacheHelpersOf (Warehouses_handleSubmit (Some ew) formData response) = []
  ∧ backendCallsOf (Warehouses_handleSubmit None formData response)
    = [ApiCreateWarehouse formData]
  ∧ cacheHelpersOf (Warehouses_handleSubmit None formData response)
    = match response with
      | inr newWarehouse => [HAddWarehouse newWarehouse]
      | inl _ => []
      end.
Proof.
  repeat split; try reflexivity; destruct response; reflexivity.
Qed.

(** X23.  A failed delete is not rolled back in the cache.  [handleDelete]
    of the products page (and of the warehouses page) removes the row from
    the cache before it calls the backend; when the call fails it alerts
    and reloads, but neither re-adds the row nor invalidates the key.  The
    reload goes through the closure of the render the handler belongs to:
    while that snapshot is fresh it returns the list with the row, without
    a backend call.  The store keeps the list without the row, stamped
    with the time of the removal, so a non-forced read from a later render
    within five minutes of the removal gets the list without the row and
    does not reach the backend either. *)
Theorem failed_delete_stays_in_cache (product : Entity) (error : Err)
    (snap : Cache) (s : Slot) (l : list Entity) (removed reloaded later : Z)
    (log : list ApiCall) :
  snap !! "products" = Some s → data s = Some l →
  fresh s reloaded = true →
  removed ≠ 0 → later - removed < CACHE_DURATION →
  cacheHelpersOf (Products_handleDelete product true (inl error))
  = [HRemoveProduct (product !! "id")]
  ∧ backendCallsOf (Products_handleDelete product true (inl error))
    = [ApiDeleteProduct (product !! "id")]
  ∧ last (Products_handleDelete product true (inl error)) = Some MLoadData
  ∧ cacheHelpersOf (Warehouses_handleDelete product true (inl error))
    = [HRemoveWarehouse (product !! "id")]
  ∧ ∃ (next : Cache) (l' : list Entity),
      runHelper (HRemoveProduct (product !! "id")) removed snap = Some next
      ∧ next !! "products" = Some (mkSlot (Some l') (Some removed) false)
      ∧ ((product !! "id") ∉ idsOf l')
      ∧ runSync (getProducts snap false) (mkWorld next reloaded log)
        = (Settled (inr (Some l)), mkWorld next reloaded log)
      ∧ runSync (getProducts next false) (mkWorld next later log)
        = (Settled (inr (Some l')), mkWorld next later log).
Proof.
  intros Hs Hl Hfresh Hnz Hlater.
  split; [reflexivity|]. split; [reflexivity|]. split; [reflexivity|].
  split; [reflexivity|].
  destruct (helperFunction_carriedOut (HRemoveProduct (product !! "id")) l)
    as (l' & Hf & _).
  pose proof (helperFunction_idsAfter _ _ _ Hf) as [Hgone _].
  exists (<["products" := mkSlot (Some l') (Some removed) false]> snap), l'.
  split; [|split; [|split; [|split]]].
  - rewrite runHelper_updateCache.
    rewrite (updateCache_fun _ _ _ _ _ Hs), Hl, Hf. reflexivity.
  - apply lookup_insert_eq.
  - exact Hgone.
  - unfold getProducts. rewrite fetchWithCache_run, Hs. simpl.
    by rewrite Hfresh, Hl.
  - unfold getProducts. rewrite fetchWithCache_run, lookup_insert_eq.
    assert (Hf' : fresh (mkSlot (Some l') (Some removed) false) later = true).
    { unfold fresh. simpl. apply andb_true_iff. split; [|by apply Z.ltb_lt].
      apply negb_true_iff. by apply Z.eqb_neq. }
    simpl. by rewrite Hf'.
Qed.

(** X23, on a store with two cached rows read at time 5: the row with id 1
    is removed at time 100, the delete fails, the reload at time 200 still
    shows both rows, and a read at time 1000 from the new state shows one. *)
Lemma failed_delete_stays_in_cache_witness :
  cacheHelpersOf (Products_handleDelete mainWarehouse true (inl (ApiError "in use")))
  = [HRemoveProduct (mainWarehouse !! "id")]
  ∧ backendCallsOf (Products_handleDelete mainWarehouse true (inl (ApiError "in use")))
    = [ApiDeleteProduct (mainWarehouse !! "id")]
  ∧ last (Products_handleDelete mainWarehouse true (inl (ApiError "in use")))
    = Some MLoadData
  ∧ cacheHelpersOf (Warehouses_handleDelete mainWarehouse true (inl (ApiError "in use")))
    = [HRemoveWarehouse (mainWarehouse !! "id")]
  ∧ ∃ (next : Cache) (l' : list Entity),
      runHelper (HRemoveProduct (mainWarehouse !! "id")) 100 twoProducts = Some next
      ∧ next !! "products" = Some (mkSlot (Some l') (Some 100) false)
      ∧ ((mainWarehouse !! "id") ∉ idsOf l')
      ∧ runSync (getProducts twoProducts false) (mkWorld next 200 [])
        = (Settled (inr (Some [mainWarehouse; annexWarehouse])), mkWorld next 200 [])
      ∧ runSync (getProducts next false) (mkWorld next 1000 [])
        = (Settled (inr (Some l')), mkWorld next 1000 []).
Proof.
  refine (failed_delete_stays_in_cache mainWarehouse (ApiError "in use") twoProducts
            (mkSlot (Some [mainWarehouse; annexWarehouse]) (Some 5) false)
            [mainWarehouse; annexWarehouse] 100 200 1000 [] _ _ _ _ _).
  - reflexivity.
  - reflexivity.
  - reflexivity.
  - discriminate.
  - reflexivity.
Defined.

(** ** Joining a fetch in flight *)

(** X7.  A call of [fetchWithCache] that finds the slot loading in its
    snapshot, and is not answered from a fresh slot, neither calls the
    backend nor touches the store, and it never settles: its interval
    callback tests the [loading] flag of that same snapshot, so whatever
    happens to the store and however often the interval fires, the call
    stays pending and changes nothing. *)
Theorem joined_call_stays_pending {F : Type} (snap : Cache) (key : string)
    (fn : F) (force : bool) (s : Slot) (w : World F) :
  snap !! key = Some s → loading s = true →
  negb force && fresh s (clock w) = false →
  ∃ t : Task F Data,
    runSync (fetchWithCache snap key fn force) w = (t, w)
    ∧ isPolling t = true
    ∧ ∀ ws : list (World F), ticksIn ws t = (t, ws).
Proof.
  intros Hs Hl Hf.
  exists (Polling (checkInterval snap key) Resolve).
  split; [by rewrite fetchWithCache_run, Hs, Hf, Hl|]. split; [reflexivity|].
  induction ws as [|w1 ws IH]; simpl; [reflexivity|].
  unfold checkInterval at 1. rewrite Hs, Hl. by rewrite IH.
Qed.

(** X7, on the initial store marked loading: a [getProducts] from a render
    that saw the flag set is still pending after the payload was committed
    to the store. *)
Lemma joined_call_stays_pending_witness :
  ∃ t : Task ApiCall Data,
    runSync (fetchWithCache (setLoading "products" true initialCache) "products"
               ApiGetProducts false)
            (mkWorld (setLoading "products" true initialCache) 1000 [ApiGetProducts])
    = (t, mkWorld (setLoading "products" true initialCache) 1000 [ApiGetProducts])
    ∧ isPolling t = true
    ∧ ∀ ws : list (World ApiCall), ticksIn ws t = (t, ws).
Proof.
  refine (joined_call_stays_pending (setLoading "products" true initialCache)
            "products" ApiGetProducts false (mkSlot None None true)
            (mkWorld (setLoading "products" true initialCache) 1000 [ApiGetProducts]) _ _ _).
  - reflexivity.
  - reflexivity.
  - reflexivity.
Defined.

(** ** One slot for all warehouses *)

(** X24.  [getLocations] keeps the locations of whatever warehouse was
    asked for in the single [locations] slot.  Once a fetch for one
    warehouse has fulfilled, a [getLocations] for any other warehouse (or
    for all of them) that is not forced, made from the resulting state less
    than five minutes after the arrival, resolves with the list fetched for
    the first warehouse and does not call the backend. *)
Theorem locations_slot_ignores_warehouse (snap : Cache)
    (warehouseA warehouseB : option JsVal) (force : bool)
    (w0 w1 w w' w2 : World ApiCall) (t t' : Task ApiCall Data) (d : list Entity) :
  runSync (getLocations snap warehouseA force) w0 = (t, w1) →
  isAwaiting t = true →
  deliver (Fulfilled d) t w = (t', w') →
  clock w ≠ 0 →
  clock w2 - clock w < CACHE_DURATION →
  calls w1 = calls w0 ++ [ApiGetLocations warehouseA]
  ∧ store w' !! "locations" = Some (mkSlot (Some d) (Some (clock w)) false)
  ∧ runSync (getLocations (store w') warehouseB false) w2
    = (Settled (inr (Some d)), w2).
Proof.
  unfold getLocations. intros Hrun Ht Hdel Hnz Hlt.
  rewrite (awaiting_call_fulfilled _ _ _ _ _ _ _ d w Hrun Ht) in Hdel.
  injection Hdel as <- <-.
  split; [|split].
  - rewrite fetchWithCache_run in Hrun.
    destruct (snap !! "locations") as [s0|]; [|injection Hrun as <- <-; discriminate Ht].
    destruct (negb force && fresh s0 (clock w0));
      [injection Hrun as <- <-; discriminate Ht|].
    destruct (loading s0); [injection Hrun as <- <-; discriminate Ht|].
    by injection Hrun as <- <-.
  - apply lookup_insert_eq.
  - rewrite fetchWithCache_run. simpl store. unfold commitFetched at 1.
    rewrite lookup_insert_eq.
    assert (Hfresh : fresh (mkSlot (Some d) (Some (clock w)) false) (clock w2) = true).
    { unfold fresh. simpl. apply andb_true_iff. split; [|by apply Z.ltb_lt].
      apply negb_true_iff. by apply Z.eqb_neq. }
    simpl. by rewrite Hfresh.
Qed.

(** X24, on the initial store: the locations of warehouse 1 arrive at time
    2000; a minute later the locations of warehouse 2 are asked for. *)
Lemma locations_slot_ignores_warehouse_witness :
  calls (mkWorld (setLoading "locations" true initialCache) 1000
                 [ApiGetLocations (Some (JNum 1))])
  = [] ++ [ApiGetLocations (Some (JNum 1))]
  ∧ store (mkWorld (commitFetched "locations" [mainWarehouse] 2000
                      (setLoading "locations" true initialCache))
                   2000 [ApiGetLocations (Some (JNum 1))]) !! "locations"
    = Some (mkSlot (Some [mainWarehouse]) (Some 2000) false)
  ∧ runSync (getLocations
               (store (mkWorld (commitFetched "locations" [mainWarehouse] 2000
                                  (setLoading "locations" true initialCache))
                               2000 [ApiGetLocations (Some (JNum 1))]))
               (Some (JNum 2)) false)
            (mkWorld (commitFetched "locations" [mainWarehouse] 2000
                        (setLoading "locations" true initialCache))
                     62000 [ApiGetLocations (Some (JNum 1))])
    = (Settled (inr (Some [mainWarehouse])),
       mkWorld (commitFetched "locations" [mainWarehouse] 2000
                  (setLoading "locations" true initialCache))
               62000 [ApiGetLocations (Some (JNum 1))]).
Proof.
  refine (locations_slot_ignores_warehouse initialCache (Some (JNum 1)) (Some (JNum 2))
            false
            (mkWorld initialCache 1000 [])
            (mkWorld (setLoading "locations" true initialCache) 1000
                     [ApiGetLocations (Some (JNum 1))])
            (mkWorld (setLoading "locations" true initialCache) 2000
                     [ApiGetLocations (Some (JNum 1))])
            (mkWorld (commitFetched "locations" [mainWarehouse] 2000
                        (setLoading "locations" true initialCache))
                     2000 [ApiGetLocations (Some (JNum 1))])
            (mkWorld (commitFetched "locations" [mainWarehouse] 2000
                        (setLoading "locations" true initialCache))
                     62000 [ApiGetLocations (Some (JNum 1))])
            (Awaiting (ApiGetLocations (Some (JNum 1))) (afterFetch "locations"))
            (Settled (inr (Some [mainWarehouse])))
            [mainWarehouse] _ _ _ _ _).
  - reflexivity.
  - reflexivity.
  - reflexivity.
  - discriminate.
  - reflexivity.
Defined.
